(** * TechStax GitHub webhook receiver: a shallow embedding of [main.py]

    The development follows the layout of the Python module: the payload
    tree the handlers receive ([request.json()]), the helper functions
    ([format_timestamp], [create_formatted_message], [extract_push_event],
    [extract_pull_request_event]) and the two endpoints
    ([receive_github_webhook], [get_events]).

    Python exceptions are modelled by an error monad; a [try ... except
    Exception] block is a handler on that monad.  Strings are byte strings
    (the UTF-8 encoding of the Python text), which is also the order MongoDB
    uses to compare them. *)

From Stdlib Require Import ZArith List Bool Lia.
From Stdlib Require Import Strings.String Strings.Ascii.
From Stdlib Require Import Numbers.DecimalString.
From Stdlib Require Import Sorting.Sorted Sorting.Permutation.
Import ListNotations.

Local Open Scope string_scope.
Local Open Scope list_scope.

Set Warnings "-register-all".

(* ====================================================================== *)
(** ** Python values and exceptions *)
(* ====================================================================== *)

(** The exceptions the modelled code can raise. *)
Inductive exn : Type :=
| AttributeError
| ValueError
| IndexError
| ValidationError.

Inductive result (A : Type) : Type :=
| Ok (a : A)
| Raise (e : exn).

Arguments Ok {A} a.
Arguments Raise {A} e.

Definition bind {A B : Type} (c : result A) (k : A -> result B) : result B :=
  match c with
  | Ok a => k a
  | Raise e => Raise e
  end.

Notation "x <- c ;; k" := (bind c (fun x => k))
  (at level 61, c at next level, right associativity).

(** What [await request.json()] hands to the handlers: the tree built by
    [json.loads].  A float is kept as mantissa and binary exponent; only its
    being zero or not is ever observed. *)
Inductive json : Type :=
| JNull
| JBool (b : bool)
| JInt (n : Z)
| JFloat (mant expo : Z)
| JStr (s : string)
| JList (xs : list json)
| JDict (kvs : list (string * json)).

(** Python truth value testing ([if x:], [not x], [x and y]). *)
Definition truthy (v : json) : bool :=
  match v with
  | JNull => false
  | JBool b => b
  | JInt n => negb (n =? 0)%Z
  | JFloat m _ => negb (m =? 0)%Z
  | JStr s => negb (s =? "")
  | JList xs => match xs with [] => false | _ :: _ => true end
  | JDict kvs => match kvs with [] => false | _ :: _ => true end
  end.

Fixpoint lookup (k : string) (kvs : list (string * json)) : option json :=
  match kvs with
  | [] => None
  | (k', v) :: rest => if k' =? k then Some v else lookup k rest
  end.

(** [obj.get(k, default)]: only a dict has the method; on any other value
    the attribute lookup raises [AttributeError]. *)
Definition py_get (obj : json) (k : string) (default : json) : result json :=
  match obj with
  | JDict kvs =>
      Ok (match lookup k kvs with Some v => v | None => default end)
  | _ => Raise AttributeError
  end.

(** [v == "literal"] for a payload value [v]. *)
Definition eq_str (v : json) (lit : string) : bool :=
  match v with
  | JStr s => s =? lit
  | _ => false
  end.

(** [str.replace(old, new)]: every non-overlapping occurrence of [old],
    scanning left to right.  [skip] counts the characters of a match that are
    still to be dropped. *)
Fixpoint replace_from (old new : string) (skip : nat) (s : string) : string :=
  match s with
  | EmptyString => EmptyString
  | String c s' =>
      match skip with
      | S k => replace_from old new k s'
      | O =>
          if prefix old s
          then new ++ replace_from old new (Nat.pred (String.length old)) s'
          else String c (replace_from old new 0 s')
      end
  end.

Fixpoint interleave (new s : string) : string :=
  match s with
  | EmptyString => new
  | String c s' => new ++ String c (interleave new s')
  end.

Definition str_replace (s old new : string) : string :=
  match old with
  | EmptyString => interleave new s
  | String _ _ => replace_from old new 0 s
  end.

(** [v.replace(old, new)] on a payload value: only [str] has the method. *)
Definition py_replace (v : json) (old new : string) : result string :=
  match v with
  | JStr s => Ok (str_replace s old new)
  | _ => Raise AttributeError
  end.

(* ====================================================================== *)
(** ** Enums and models *)
(* ====================================================================== *)

Inductive ActionType : Type :=
| PUSH
| PULL_REQUEST
| MERGE.

(** [ActionType.X.value] *)
Definition value (a : ActionType) : string :=
  match a with
  | PUSH => "PUSH"
  | PULL_REQUEST => "PULL_REQUEST"
  | MERGE => "MERGE"
  end.

Record GitHubEvent : Type := mkGitHubEvent {
  author : string;
  action : ActionType;
  from_branch : option string;
  to_branch : string;
  timestamp : string
}.

(** Pydantic validation of a [str] field: a JSON value passes only when it
    is a string (numbers are not coerced). *)
Definition validate_str (v : json) : result string :=
  match v with
  | JStr s => Ok s
  | _ => Raise ValidationError
  end.

(** Pydantic validation of an [Optional[str]] field. *)
Definition validate_optional_str (v : json) : result (option string) :=
  match v with
  | JNull => Ok None
  | JStr s => Ok (Some s)
  | _ => Raise ValidationError
  end.

(** The constructor call [GitHubEvent(author=..., action=..., ...)]. *)
Definition new_GitHubEvent (author : json) (action : ActionType)
    (from_branch to_branch timestamp : json) : result GitHubEvent :=
  a <- validate_str author ;;
  f <- validate_optional_str from_branch ;;
  t <- validate_str to_branch ;;
  ts <- validate_str timestamp ;;
  Ok (mkGitHubEvent a action f t ts).

(** [try: body  except Exception: return None] at the classifier boundary. *)
Definition except_none {A : Type} (body : result (option A)) : option A :=
  match body with
  | Ok r => r
  | Raise _ => None
  end.

(* ====================================================================== *)
(** ** Event classifier *)
(* ====================================================================== *)

(** The [try] body of [extract_push_event].  [now] is the value of
    [datetime.now(timezone.utc).isoformat()] at the call. *)
Definition extract_push_event_body (now : string) (payload : json)
  : result (option GitHubEvent) :=
  pusher <- py_get payload "pusher" (JDict []) ;;
  author <- py_get pusher "name" (JStr "") ;;
  author <- (if negb (truthy author)
             then sender <- py_get payload "sender" (JDict []) ;;
                  py_get sender "login" (JStr "Unknown")
             else Ok author) ;;
  ref <- py_get payload "ref" (JStr "") ;;
  to_branch <- (if truthy ref
                then py_replace ref "refs/heads/" ""
                else Ok "unknown") ;;
  head_commit <- py_get payload "head_commit" (JDict []) ;;
  timestamp <- py_get head_commit "timestamp" (JStr now) ;;
  ev <- new_GitHubEvent author PUSH JNull (JStr to_branch) timestamp ;;
  Ok (Some ev).

Definition extract_push_event (now : string) (payload : json)
  : option GitHubEvent :=
  except_none (extract_push_event_body now payload).

(** The [try] body of [extract_pull_request_event]. *)
Definition extract_pull_request_event_body (now : string) (payload : json)
  : result (option GitHubEvent) :=
  pr_action <- py_get payload "action" (JStr "") ;;
  pull_request <- py_get payload "pull_request" (JDict []) ;;
  user <- py_get pull_request "user" (JDict []) ;;
  author <- py_get user "login" (JStr "") ;;
  author <- (if negb (truthy author)
             then sender <- py_get payload "sender" (JDict []) ;;
                  py_get sender "login" (JStr "Unknown")
             else Ok author) ;;
  head <- py_get pull_request "head" (JDict []) ;;
  base <- py_get pull_request "base" (JDict []) ;;
  from_branch <- py_get head "ref" (JStr "unknown") ;;
  to_branch <- py_get base "ref" (JStr "unknown") ;;
  is_merged <- py_get pull_request "merged" (JBool false) ;;
  merged_at <- py_get pull_request "merged_at" JNull ;;
  if eq_str pr_action "closed" && truthy is_merged && truthy merged_at then
    merged_by_obj <- py_get pull_request "merged_by" (JDict []) ;;
    merged_by <- py_get merged_by_obj "login" author ;;
    ev <- new_GitHubEvent merged_by MERGE from_branch to_branch merged_at ;;
    Ok (Some ev)
  else if eq_str pr_action "opened" || eq_str pr_action "reopened" then
    created_at <- py_get pull_request "created_at" (JStr now) ;;
    ev <- new_GitHubEvent author PULL_REQUEST from_branch to_branch created_at ;;
    Ok (Some ev)
  else Ok None.

Definition extract_pull_request_event (now : string) (payload : json)
  : option GitHubEvent :=
  except_none (extract_pull_request_event_body now payload).

(* ====================================================================== *)
(** ** [datetime]: the part of the standard library the formatter uses *)
(* ====================================================================== *)

Local Open Scope Z_scope.

(** An aware or naive [datetime]; [tzinfo] is the UTC offset in
    microseconds when there is one. *)
Record datetime : Type := mkdatetime {
  year : Z;
  month : Z;
  day : Z;
  hour : Z;
  minute : Z;
  second : Z;
  microsecond : Z;
  tzinfo : option Z
}.

Definition is_leap (y : Z) : bool :=
  (y mod 4 =? 0) && (negb (y mod 100 =? 0) || (y mod 400 =? 0)).

Definition days_in_month (y m : Z) : Z :=
  if m =? 2 then (if is_leap y then 29 else 28)
  else if (m =? 4) || (m =? 6) || (m =? 9) || (m =? 11) then 30
  else 31.

Definition between (lo x hi : Z) : bool := (lo <=? x) && (x <=? hi).

(** The range checks of the [datetime(...)] constructor; a field out of
    range raises [ValueError]. *)
Definition valid_datetime (dt : datetime) : bool :=
  between 1 (year dt) 9999 &&
  between 1 (month dt) 12 &&
  between 1 (day dt) (days_in_month (year dt) (month dt)) &&
  between 0 (hour dt) 23 &&
  between 0 (minute dt) 59 &&
  between 0 (second dt) 59 &&
  between 0 (microsecond dt) 999999 &&
  match tzinfo dt with
  | None => true
  | Some off => (-86400000000 <? off) && (off <? 86400000000)
  end.

Definition new_datetime (dt : datetime) : result datetime :=
  if valid_datetime dt then Ok dt else Raise ValueError.

(** *** Reading decimal fields

    A digit is one of the ten ASCII digits.  The library's [strptime] also
    takes the decimal digits of other scripts; a timestamp written with
    those is left unparsed here. *)

Definition digit (c : ascii) : option Z :=
  let n := Z.of_N (N_of_ascii c) in
  if between 48 n 57 then Some (n - 48) else None.

(** Exactly [n] decimal digits at the head of [s]; [acc] is the value read
    so far. *)
Fixpoint digits (n : nat) (acc : Z) (s : string) : option (Z * string) :=
  match n with
  | O => Some (acc, s)
  | S n' =>
      match s with
      | String c s' =>
          match digit c with
          | Some d => digits n' (10 * acc + d) s'
          | None => None
          end
      | EmptyString => None
      end
  end.

(** The literal character [c] at the head of [s]. *)
Definition expect (c : ascii) (s : string) : option string :=
  match s with
  | String c' s' => if Ascii.eqb c c' then Some s' else None
  | EmptyString => None
  end.

Definition obind {A B : Type} (o : option A) (k : A -> option B) : option B :=
  match o with
  | Some a => k a
  | None => None
  end.

Notation "x <~ c ;; k" := (obind c (fun x => k))
  (at level 61, c at next level, right associativity).
Notation "' p <~ c ;; k" := (obind c (fun p => k))
  (at level 61, p pattern, c at next level, right associativity).

(** *** [datetime.fromisoformat]

    The grammar the library documents for the strings [isoformat()] emits:
    [YYYY-MM-DD[*HH[:MM[:SS[.fff[fff]]]][+HH:MM[:SS[.ffffff]]]]], where [*]
    is any single character.  Later versions of the library read more
    forms (dates without dashes, fractions of any length, offsets without a
    colon); what is proved of [format_timestamp] below uses of its parsers
    only that they raise [ValueError] and nothing else, and return valid
    dates. *)

(** [.fff] or [.ffffff] at the end of a time, in microseconds. *)
Definition parse_fraction (s : string) : option Z :=
  match s with
  | EmptyString => Some 0
  | String c s' =>
      if Ascii.eqb c "."
      then match digits 6 0 s', digits 3 0 s' with
           | Some (us, EmptyString), _ => Some us
           | _, Some (ms, EmptyString) => Some (ms * 1000)
           | _, _ => None
           end
      else None
  end.

(** [HH[:MM[:SS[.fff[fff]]]]], the whole of [s]. *)
Definition parse_hh_mm_ss_ff (s : string) : option (Z * Z * Z * Z) :=
  '(hh, s1) <~ digits 2 0 s ;;
  match s1 with
  | EmptyString => Some (hh, 0, 0, 0)
  | _ =>
      s1 <~ expect ":" s1 ;;
      '(mm, s2) <~ digits 2 0 s1 ;;
      match s2 with
      | EmptyString => Some (hh, mm, 0, 0)
      | _ =>
          s2 <~ expect ":" s2 ;;
          '(ss, s3) <~ digits 2 0 s2 ;;
          us <~ parse_fraction s3 ;;
          Some (hh, mm, ss, us)
      end
  end.

(** Split a time string at its first [+] or [-]: the time proper, and the
    sign and text of the offset when there is one. *)
Fixpoint split_tz (s : string) : string * option (Z * string) :=
  match s with
  | EmptyString => (EmptyString, None)
  | String c s' =>
      if Ascii.eqb c "+" then (EmptyString, Some (1, s'))
      else if Ascii.eqb c "-" then (EmptyString, Some (-1, s'))
      else let '(t, tz) := split_tz s' in (String c t, tz)
  end.

(** The offset text: [HH:MM], [HH:MM:SS] or [HH:MM:SS.ffffff]. *)
Definition parse_tz (sign : Z) (s : string) : option Z :=
  let n := String.length s in
  if (Nat.eqb n 5 || Nat.eqb n 8 || Nat.eqb n 15)%bool then
    '(hh, mm, ss, us) <~ parse_hh_mm_ss_ff s ;;
    Some (sign * (((hh * 3600 + mm * 60 + ss) * 1000000) + us))
  else None.

(** The separator between date and time is one character, whatever it is:
    [s] without its first character, which takes one to four bytes. *)
Definition skip_char (s : string) : string :=
  match s with
  | EmptyString => EmptyString
  | String c s' =>
      let n := Z.of_N (N_of_ascii c) in
      let extra :=
        if n <? 128 then 0%nat
        else if between 224 n 239 then 2%nat
        else if between 240 n 255 then 3%nat
        else 1%nat in
      string_of_list_ascii (skipn extra (list_ascii_of_string s'))
  end.

Definition parse_isoformat (s : string) : option datetime :=
  '(y, s) <~ digits 4 0 s ;;
  s <~ expect "-" s ;;
  '(m, s) <~ digits 2 0 s ;;
  s <~ expect "-" s ;;
  '(d, s) <~ digits 2 0 s ;;
  match s with
  | EmptyString => Some (mkdatetime y m d 0 0 0 0 None)
  | String _ _ =>
      let '(timestr, tz) := split_tz (skip_char s) in
      '(hh, mm, ss, us) <~ parse_hh_mm_ss_ff timestr ;;
      match tz with
      | None => Some (mkdatetime y m d hh mm ss us None)
      | Some (sign, tzstr) =>
          off <~ parse_tz sign tzstr ;;
          Some (mkdatetime y m d hh mm ss us (Some off))
      end
  end.

Definition fromisoformat (s : string) : result datetime :=
  match parse_isoformat s with
  | Some dt => new_datetime dt
  | None => Raise ValueError
  end.

(** *** [datetime.strptime(s, "%Y-%m-%dT%H:%M:%S")]

    [strptime] compiles the format to a regular expression and matches it
    against the whole string; each directive is a group of alternatives
    tried in order, with backtracking, which the continuation [k] stands
    for. *)

Definition orelse {A : Type} (a b : option A) : option A :=
  match a with
  | Some x => Some x
  | None => b
  end.

Definition in_range (lo hi v : Z) : bool := between lo v hi.

(** A group [dd|d]: two digits with a value [ok2] accepts, else one digit
    with a value [ok1] accepts. *)
Definition re_group {A : Type} (ok2 ok1 : Z -> bool) (s : string)
    (k : Z -> string -> option A) : option A :=
  orelse
    ('(v, s') <~ digits 2 0 s ;; if ok2 v then k v s' else None)
    ('(v, s') <~ digits 1 0 s ;; if ok1 v then k v s' else None).

(** [%d] has one more alternative, a space before a single digit. *)
Definition re_group_d {A : Type} (s : string)
    (k : Z -> string -> option A) : option A :=
  orelse
    (re_group (in_range 1 31) (in_range 1 9) s k)
    (s' <~ expect " " s ;;
     '(v, s'') <~ digits 1 0 s' ;; if in_range 1 9 v then k v s'' else None).

(** The literal [T] of the format; the expression ignores case. *)
Definition expect_T (s : string) : option string :=
  orelse (expect "T" s) (expect "t" s).

Definition at_end {A : Type} (s : string) (a : A) : option A :=
  match s with
  | EmptyString => Some a
  | String _ _ => None
  end.

Definition strptime_match (s : string) : option datetime :=
  '(y, s) <~ digits 4 0 s ;;
  s <~ expect "-" s ;;
  re_group (in_range 1 12) (in_range 1 9) s (fun m s =>
  s <~ expect "-" s ;;
  re_group_d s (fun d s =>
  s <~ expect_T s ;;
  re_group (in_range 0 23) (in_range 0 9) s (fun hh s =>
  s <~ expect ":" s ;;
  re_group (in_range 0 59) (in_range 0 9) s (fun mm s =>
  s <~ expect ":" s ;;
  re_group (in_range 0 61) (in_range 0 9) s (fun ss s =>
  at_end s (mkdatetime y m d hh mm ss 0 None)))))).

Definition strptime (s : string) : result datetime :=
  match strptime_match s with
  | Some dt => new_datetime dt
  | None => Raise ValueError
  end.

(** [dt.replace(tzinfo=timezone.utc)] *)
Definition replace_tzinfo_utc (dt : datetime) : datetime :=
  mkdatetime (year dt) (month dt) (day dt) (hour dt) (minute dt) (second dt)
             (microsecond dt) (Some 0).

(** *** [strftime] *)

(** [str(n)] for an integer. *)
Definition str_of_int (n : Z) : string :=
  NilZero.string_of_int (Z.to_int n).

(** Two columns, zero padded ([%I], [%M]). *)
Definition pad2 (n : Z) : string :=
  if n <? 10 then "0" ++ str_of_int n else str_of_int n.

Definition month_name (m : Z) : string :=
  nth (Z.to_nat (m - 1))
      ["January"; "February"; "March"; "April"; "May"; "June"; "July";
       "August"; "September"; "October"; "November"; "December"]%string
      ""%string.

(** One conversion specification, in the C locale. *)
Definition directive (dt : datetime) (c : ascii) : string :=
  if Ascii.eqb c "B" then month_name (month dt)
  else if Ascii.eqb c "Y" then str_of_int (year dt)
  else if Ascii.eqb c "I" then
    pad2 (if hour dt mod 12 =? 0 then 12 else hour dt mod 12)
  else if Ascii.eqb c "M" then pad2 (minute dt)
  else if Ascii.eqb c "p" then (if hour dt <? 12 then "AM" else "PM")
  else if Ascii.eqb c "%" then "%"
  else String "%" (String c EmptyString).

Fixpoint strftime (dt : datetime) (fmt : string) : string :=
  match fmt with
  | EmptyString => EmptyString
  | String c rest =>
      if Ascii.eqb c "%" then
        match rest with
        | String d rest' => directive dt d ++ strftime dt rest'
        | EmptyString => String c EmptyString
        end
      else String c (strftime dt rest)
  end.

(** [xs[i]] on a Python list: a negative index counts from the end, an
    index outside the list raises [IndexError]. *)
Definition py_index {A : Type} (xs : list A) (i : Z) : result A :=
  let n := Z.of_nat (List.length xs) in
  let j := if i <? 0 then i + n else i in
  if (0 <=? j) && (j <? n) then
    match nth_error xs (Z.to_nat j) with
    | Some x => Ok x
    | None => Raise IndexError
    end
  else Raise IndexError.

(* ====================================================================== *)
(** ** Helper functions *)
(* ====================================================================== *)

(** The code after the [try] of [format_timestamp]: the ordinal suffix and
    the rendering. *)
Definition ordinal_suffix (day : Z) : result string :=
  if between 4 day 20 || between 24 day 30 then Ok "th"
  else py_index ["st"; "nd"; "rd"]%string (day mod 10 - 1).

Definition render (dt : datetime) : result string :=
  let day := day dt in
  suffix <- ordinal_suffix day ;;
  Ok (strftime dt (str_of_int day ++ suffix ++ " %B %Y - %I:%M %p UTC")).

(** [format_timestamp]: each [except ValueError] catches that exception
    only; anything else would reach the caller. *)
Definition format_timestamp (timestamp_str : string) : result string :=
  match fromisoformat (str_replace timestamp_str "Z" "+00:00") with
  | Ok dt => render dt
  | Raise ValueError =>
      match strptime timestamp_str with
      | Ok dt => render (replace_tzinfo_utc dt)
      | Raise ValueError => Ok timestamp_str
      | Raise e => Raise e
      end
  | Raise e => Raise e
  end.

Local Open Scope string_scope.

(** A document of the events collection: what [insert_one] stored for
    [event.model_dump()], with the [_id] the driver assigned.  [action] is the
    enum's value ([use_enum_values]).  Every key the readers look up with
    [event.get(key, default)] is present in such a document, so the
    defaults of those calls are not modelled. *)
Record StoredEvent : Type := mkStoredEvent {
  _id : string;
  doc_author : string;
  doc_action : string;
  doc_from_branch : option string;
  doc_to_branch : string;
  doc_timestamp : string
}.

(** How an f-string renders an [Optional[str]]. *)
Definition fstr_optional (o : option string) : string :=
  match o with
  | Some s => s
  | None => "None"
  end.

(** The double quote character of the message templates. *)
Definition dquote : string := String (ascii_of_nat 34) EmptyString.

Definition quoted (s : string) : string := dquote ++ s ++ dquote.

Definition create_formatted_message (event : StoredEvent) : result string :=
  let author := doc_author event in
  let action := doc_action event in
  let from_branch := fstr_optional (doc_from_branch event) in
  let to_branch := doc_to_branch event in
  timestamp <- format_timestamp (doc_timestamp event) ;;
  if action =? value PUSH then
    Ok (quoted author ++ " pushed to " ++ quoted to_branch
        ++ " on " ++ timestamp)
  else if action =? value PULL_REQUEST then
    Ok (quoted author ++ " submitted a pull request from "
        ++ quoted from_branch ++ " to " ++ quoted to_branch
        ++ " on " ++ timestamp)
  else if action =? value MERGE then
    Ok (quoted author ++ " merged branch " ++ quoted from_branch
        ++ " to " ++ quoted to_branch ++ " on " ++ timestamp)
  else Ok ("Unknown action by " ++ author).

(* ====================================================================== *)
(** ** The events collection *)
(* ====================================================================== *)

(** The collection holds the inserted documents in insertion order. *)
Definition collection : Type := list StoredEvent.

(** [collection.insert_one(event.model_dump())]; [oid] is the [ObjectId] the
    driver generates, as [str] prints it. *)
Definition insert_one (coll : collection) (oid : string) (event : GitHubEvent)
  : collection :=
  (coll ++ [mkStoredEvent oid (author event) (value (action event))
                          (from_branch event) (to_branch event)
                          (timestamp event)])%list.

(** The two filters [get_events] builds: no filter, or a [$gt] bound on the
    [timestamp] key. *)
Inductive query : Type :=
| QAll
| QTimestampGt (since : string).

(** [$gt] between strings is the binary comparison of their bytes. *)
Definition matches (q : query) (d : StoredEvent) : bool :=
  match q with
  | QAll => true
  | QTimestampGt since => since <? doc_timestamp d
  end.

Definition find (coll : collection) (q : query) : list StoredEvent :=
  filter (matches q) coll.

(** [.sort("timestamp", -1)]: descending on the [timestamp] key.  The
    server leaves the order of documents with equal keys open; here they
    keep their insertion order. *)
Fixpoint insert_desc (d : StoredEvent) (l : list StoredEvent)
  : list StoredEvent :=
  match l with
  | [] => [d]
  | x :: rest =>
      if doc_timestamp x <=? doc_timestamp d
      then d :: l
      else x :: insert_desc d rest
  end.

Definition sort_desc (l : list StoredEvent) : list StoredEvent :=
  fold_right insert_desc [] l.

(** [.limit(n)]: zero means no limit, a negative count is taken in absolute
    value. *)
Definition cursor_limit (n : Z) (l : list StoredEvent) : list StoredEvent :=
  if (n =? 0)%Z then l else firstn (Z.to_nat (Z.abs n)) l.

(** [await cursor.to_list(length=n)]: at most [n] documents; a negative
    length is refused with [ValueError]. *)
Definition to_list (n : Z) (l : list StoredEvent) : result (list StoredEvent) :=
  if (n <? 0)%Z then Raise ValueError else Ok (firstn (Z.to_nat n) l).

(* ====================================================================== *)
(** ** API endpoints *)
(* ====================================================================== *)

Record EventResponse : Type := mkEventResponse {
  id : string;
  resp_author : string;
  resp_action : string;
  resp_from_branch : option string;
  resp_to_branch : string;
  resp_timestamp : string;
  formatted_message : string
}.

(** The webhook's answers: the 201 body, the "ignored" body, and the 500
    the outer handler raises for the exception [e] it caught. *)
Inductive webhook_response : Type :=
| Success (event_id author action to_branch : string)
| Ignored (message : string)
| ServerError (e : exn).

(** [receive_github_webhook].  [body] is the outcome of
    [await request.json()], the first statement of the handler's [try]: the
    tree of a body that is JSON, or the exception raised on any other body,
    which the handler answers with a 500 before it reads the header.
    [github_event] is the value of the [X-GitHub-Event] header ([""] when
    it is missing).  Returns the answer and the collection afterwards; the
    collection of this model takes every insert. *)
Definition receive_github_webhook (coll : collection) (oid now : string)
    (github_event : string) (body : result json)
  : webhook_response * collection :=
  let store (event : option GitHubEvent) :=
    match event with
    | Some event =>
        (Success oid (author event) (value (action event)) (to_branch event),
         insert_one coll oid event)
    | None => (Ignored "Event did not match criteria for storage", coll)
    end in
  match body with
  | Raise e => (ServerError e, coll)
  | Ok payload =>
      if github_event =? "push" then
        store (extract_push_event now payload)
      else if github_event =? "pull_request" then
        store (extract_pull_request_event now payload)
      else
        (Ignored ("Event type '" ++ github_event ++ "' is not supported"),
         coll)
  end.

(** The loop of [get_events] that builds the response list. *)
Fixpoint to_responses (events : list StoredEvent)
  : result (list EventResponse) :=
  match events with
  | [] => Ok []
  | event :: rest =>
      msg <- create_formatted_message event ;;
      rs <- to_responses rest ;;
      Ok (mkEventResponse (_id event) (doc_author event) (doc_action event)
                          (doc_from_branch event) (doc_to_branch event)
                          (doc_timestamp event) msg :: rs)
  end.

(** [get_events(since, limit)]; [since = None] is the parameter left out.
    An exception in the body becomes the 500 answer, which [Raise] stands
    for here. *)
Definition get_events (coll : collection) (since : option string) (limit : Z)
  : result (list EventResponse) :=
  let q := match since with
           | Some s => if truthy (JStr s) then QTimestampGt s else QAll
           | None => QAll
           end in
  let cursor := cursor_limit limit (sort_desc (find coll q)) in
  events <- to_list limit cursor ;;
  to_responses events.

(* ====================================================================== *)
(** ** Reading a payload *)
(* ====================================================================== *)

(** The value of [obj.get(k, default)] when the call returns. *)
Definition get_default (obj : json) (k : string) (default : json) : json :=
  match obj with
  | JDict kvs => match lookup k kvs with Some v => v | None => default end
  | _ => default
  end.

Definition is_dict (v : json) : bool :=
  match v with
  | JDict _ => true
  | _ => false
  end.

Definition is_str (v : json) : bool :=
  match v with
  | JStr _ => true
  | _ => false
  end.

(** [payload.get("sender", {}).get("login", "Unknown")] *)
Definition sender_login (payload : json) : json :=
  get_default (get_default payload "sender" (JDict [])) "login"
              (JStr "Unknown").

(** The author the two paths resolve first: [primary] when it is truthy,
    else [sender.login], else the literal [Unknown]. *)
Definition resolve_author (primary : json) (payload : json) : json :=
  if truthy primary then primary else sender_login payload.

Definition pusher_name (payload : json) : json :=
  get_default (get_default payload "pusher" (JDict [])) "name" (JStr "").

Definition pull_request_of (payload : json) : json :=
  get_default payload "pull_request" (JDict []).

Definition user_login (payload : json) : json :=
  get_default (get_default (pull_request_of payload) "user" (JDict []))
              "login" (JStr "").

Definition head_ref (payload : json) : json :=
  get_default (get_default (pull_request_of payload) "head" (JDict []))
              "ref" (JStr "unknown").

Definition base_ref (payload : json) : json :=
  get_default (get_default (pull_request_of payload) "base" (JDict []))
              "ref" (JStr "unknown").

(** The author of a merge: [merged_by.login], else the author above. *)
Definition merged_by_login (payload : json) : json :=
  get_default (get_default (pull_request_of payload) "merged_by" (JDict []))
              "login" (resolve_author (user_login payload) payload).

(** The test of the first branch of the pull-request path. *)
Definition is_merge (payload : json) : bool :=
  eq_str (get_default payload "action" (JStr "")) "closed"
  && truthy (get_default (pull_request_of payload) "merged" (JBool false))
  && truthy (get_default (pull_request_of payload) "merged_at" JNull).

(** The test of its second branch. *)
Definition is_open (payload : json) : bool :=
  eq_str (get_default payload "action" (JStr "")) "opened"
  || eq_str (get_default payload "action" (JStr "")) "reopened".

(** The fields of an event of the pull-request path, for the action, author
    and timestamp source its branch chose. *)
Definition pr_event (payload : json) (act : ActionType) (a ts : json)
    (e : GitHubEvent) : Prop :=
  action e = act /\
  JStr (author e) = a /\
  validate_optional_str (head_ref payload) = Ok (from_branch e) /\
  JStr (to_branch e) = base_ref payload /\
  JStr (timestamp e) = ts.

(** The payloads the push path classifies: [pusher] and [head_commit] absent
    or objects; an author that resolves to a string, through [sender] (absent
    or an object) when [pusher.name] is falsy; a [ref] that is absent, falsy
    or a string; a [head_commit.timestamp] that is absent or a string. *)
Definition push_shape_ok (payload : json) : bool :=
  is_dict (get_default payload "pusher" (JDict [])) &&
  (truthy (pusher_name payload)
   || is_dict (get_default payload "sender" (JDict []))) &&
  is_str (resolve_author (pusher_name payload) payload) &&
  (negb (truthy (get_default payload "ref" (JStr "")))
   || is_str (get_default payload "ref" (JStr ""))) &&
  is_dict (get_default payload "head_commit" (JDict [])) &&
  is_str (get_default (get_default payload "head_commit" (JDict []))
                      "timestamp" (JStr "")).

Definition is_optional_str (v : json) : bool :=
  match v with
  | JNull | JStr _ => true
  | _ => false
  end.

(** The payloads on which the pull-request path raises nothing.  The
    payload, [pull_request], [user], [head] and [base] are objects where
    present ([sender] too when [user.login] is falsy).  On a merge,
    [merged_by] is absent or an object and the merger's login, [base.ref]
    and [merged_at] are strings; on [opened] or [reopened], the resolved
    author and [base.ref] are strings and [created_at] is absent or a
    string; on both, [head.ref] is a string or null.  Any other sub-action
    asks nothing more. *)
Definition pull_request_shape_ok (payload : json) : bool :=
  let pr := pull_request_of payload in
  is_dict payload &&
  is_dict pr &&
  is_dict (get_default pr "user" (JDict [])) &&
  (truthy (user_login payload)
   || is_dict (get_default payload "sender" (JDict []))) &&
  is_dict (get_default pr "head" (JDict [])) &&
  is_dict (get_default pr "base" (JDict [])) &&
  (if is_merge payload then
     is_dict (get_default pr "merged_by" (JDict [])) &&
     is_str (merged_by_login payload) &&
     is_optional_str (head_ref payload) &&
     is_str (base_ref payload) &&
     is_str (get_default pr "merged_at" JNull)
   else if is_open payload then
     is_str (resolve_author (user_login payload) payload) &&
     is_optional_str (head_ref payload) &&
     is_str (base_ref payload) &&
     is_str (get_default pr "created_at" (JStr ""))
   else true).

(* ====================================================================== *)
(** ** The specification's tables and orders *)
(* ====================================================================== *)

(** The rule table of the specification, as written there. *)
Definition suffix_table (d : Z) : string :=
  if (d =? 1)%Z || (d =? 21)%Z || (d =? 31)%Z then "st"
  else if (d =? 2)%Z || (d =? 22)%Z then "nd"
  else if (d =? 3)%Z || (d =? 23)%Z then "rd"
  else "th".

Fixpoint no_percent (s : string) : bool :=
  match s with
  | EmptyString => true
  | String c s' => negb (Ascii.eqb c "%") && no_percent s'
  end.

(** What has to hold of one day of the month, as a test that runs. *)
Definition day_ok (d : Z) : bool :=
  match ordinal_suffix d with
  | Ok sfx => (sfx =? suffix_table d) && no_percent (str_of_int d ++ sfx)
  | Raise _ => false
  end.

(** The instant [format_timestamp] reads off its argument: the first parse
    when it succeeds, else the second one, taken as UTC. *)
Definition parsed_as (s : string) (dt : datetime) : Prop :=
  fromisoformat (str_replace s "Z" "+00:00") = Ok dt \/
  (fromisoformat (str_replace s "Z" "+00:00") = Raise ValueError /\
   exists dt0, strptime s = Ok dt0 /\ dt = replace_tzinfo_utc dt0).

(** Descending order on timestamps: the earlier entry is not below the
    later one. *)
Definition desc (a b : string) : Prop := (b <=? a) = true.

Definition doc_desc (x y : StoredEvent) : Prop :=
  desc (doc_timestamp x) (doc_timestamp y).

(** The specification's reading of the branch of a push: [ref] without its
    [prefix] when it starts with it, else [ref] as it is. *)
Fixpoint strip_prefix (prefix s : string) : option string :=
  match prefix, s with
  | EmptyString, _ => Some s
  | String p prefix', String c s' =>
      if Ascii.eqb p c then strip_prefix prefix' s' else None
  | String _ _, EmptyString => None
  end.

Definition without_prefix (prefix s : string) : string :=
  match strip_prefix prefix s with
  | Some rest => rest
  | None => s
  end.

(* ====================================================================== *)
(** ** Documents, responses and the displayed form *)
(* ====================================================================== *)

(** The document [insert_one] appends for an event. *)
Definition document_of (oid : string) (e : GitHubEvent) : StoredEvent :=
  mkStoredEvent oid (author e) (value (action e)) (from_branch e)
                (to_branch e) (timestamp e).

(** The record [get_events] builds for a document: its stored fields and the
    message [create_formatted_message] gives for it. *)
Definition response_for (d : StoredEvent) (r : EventResponse) : Prop :=
  exists msg,
    create_formatted_message d = Ok msg /\
    r = mkEventResponse (_id d) (doc_author d) (doc_action d)
                        (doc_from_branch d) (doc_to_branch d)
                        (doc_timestamp d) msg.

(** The filter [get_events] builds from its [since] parameter. *)
Definition query_of (since : option string) : query :=
  match since with
  | Some s => if truthy (JStr s) then QTimestampGt s else QAll
  | None => QAll
  end.

(** The hour [%I] shows. *)
Definition hour12 (h : Z) : Z :=
  if (h mod 12 =? 0)%Z then 12%Z else (h mod 12)%Z.

(** What the format string of [format_timestamp] expands to. *)
Definition display (dt : datetime) : string :=
  str_of_int (day dt) ++ suffix_table (day dt) ++ " "
  ++ month_name (month dt) ++ " " ++ str_of_int (year dt) ++ " - "
  ++ pad2 (hour12 (hour dt)) ++ ":" ++ pad2 (minute dt) ++ " "
  ++ (if (hour dt <? 12)%Z then "AM" else "PM") ++ " UTC".

(** The three message templates, by the action of the event. *)
Definition template (e : GitHubEvent) (shown : string) : string :=
  match action e with
  | PUSH =>
      quoted (author e) ++ " pushed to " ++ quoted (to_branch e)
      ++ " on " ++ shown
  | PULL_REQUEST =>
      quoted (author e) ++ " submitted a pull request from "
      ++ quoted (fstr_optional (from_branch e)) ++ " to "
      ++ quoted (to_branch e) ++ " on " ++ shown
  | MERGE =>
      quoted (author e) ++ " merged branch "
      ++ quoted (fstr_optional (from_branch e)) ++ " to "
      ++ quoted (to_branch e) ++ " on " ++ shown
  end.

(** What holds of every document a classifier's event is stored as: its
    action is one of the three stored values, and a push has no source
    branch. *)
Definition classified (d : StoredEvent) : Prop :=
  (doc_action d = "PUSH" /\ doc_from_branch d = None) \/
  doc_action d = "PULL_REQUEST" \/ doc_action d = "MERGE".

(** The string [old] occurs nowhere in [s]. *)
Definition no_occurrence (old s : string) : Prop :=
  forall a b, s <> a ++ old ++ b.

(** The same, as a test that runs: [old] starts at no position of [s]. *)
Fixpoint occurrence_free (old s : string) : bool :=
  match s with
  | EmptyString => negb (prefix old EmptyString)
  | String _ s' => negb (prefix old s) && occurrence_free old s'
  end.

(** A rendered date starts with at most two digits and a letter, which no
    parser of [format_timestamp] accepts: the test for one day. *)
Definition day_head_unparsable (rest : string) (n : nat) : bool :=
  let s := str_of_int (Z.of_nat n) ++ suffix_table (Z.of_nat n) ++ rest in
  match digits 4 0 (str_replace s "Z" "+00:00"), digits 4 0 s with
  | None, None => true
  | _, _ => false
  end.

(* ====================================================================== *)
(** ** Concrete inputs *)
(* ====================================================================== *)

(** The payloads of scenarios A (a push), B (a pull request opened) and C
    (the same pull request merged). *)
Definition payload_A : json :=
  JDict [("pusher", JDict [("name", JStr "alice")]);
         ("ref", JStr "refs/heads/feature-x");
         ("head_commit", JDict [("timestamp", JStr "2021-04-01T21:30:00Z")])].

Definition payload_B : json :=
  JDict [("action", JStr "opened");
         ("pull_request",
          JDict [("user", JDict [("login", JStr "bob")]);
                 ("head", JDict [("ref", JStr "dev")]);
                 ("base", JDict [("ref", JStr "main")]);
                 ("created_at", JStr "2021-05-02T10:00:00Z")])].

Definition payload_C : json :=
  JDict [("action", JStr "closed");
         ("pull_request",
          JDict [("user", JDict [("login", JStr "bob")]);
                 ("head", JDict [("ref", JStr "dev")]);
                 ("base", JDict [("ref", JStr "main")]);
                 ("created_at", JStr "2021-05-02T10:00:00Z");
                 ("merged", JBool true);
                 ("merged_at", JStr "2021-05-03T11:00:00Z");
                 ("merged_by", JDict [("login", JStr "carol")])])].

(** Scenario A: the event classified, its document in the collection and
    the message displayed. *)
Definition event_A : GitHubEvent :=
  mkGitHubEvent "alice" PUSH None "feature-x" "2021-04-01T21:30:00Z".

Definition document_A (oid : string) : StoredEvent :=
  mkStoredEvent oid "alice" "PUSH" None "feature-x" "2021-04-01T21:30:00Z".

Definition event_B : GitHubEvent :=
  mkGitHubEvent "bob" PULL_REQUEST (Some "dev") "main" "2021-05-02T10:00:00Z".

Definition message_A : string :=
  dquote ++ "alice" ++ dquote ++ " pushed to " ++ dquote ++ "feature-x"
  ++ dquote ++ " on 1st April 2021 - 09:30 PM UTC".

(** A collection holding one event of each kind. *)
Definition three_events : collection :=
  [mkStoredEvent "a1" "alice" "PUSH" None "main" "2021-04-01T21:30:00Z";
   mkStoredEvent "a2" "bob" "PULL_REQUEST" (Some "dev") "main"
                 "2021-05-02T10:00:00Z";
   mkStoredEvent "a3" "carol" "MERGE" (Some "dev") "main"
                 "2021-05-03T11:00:00Z"].

(** A push whose head commit carries an empty timestamp string. *)
Definition payload_empty_timestamp : json :=
  JDict [("pusher", JDict [("name", JStr "alice")]);
         ("ref", JStr "refs/heads/main");
         ("head_commit", JDict [("timestamp", JStr "")])].

(** The push GitHub sends when a branch is deleted has no head commit. *)
Definition payload_head_commit_null : json :=
  JDict [("pusher", JDict [("name", JStr "alice")]);
         ("ref", JStr "refs/heads/feature-x");
         ("head_commit", JNull)].

(** The branch [a/refs/heads/b] pushed to. *)
Definition payload_nested_ref : json :=
  JDict [("pusher", JDict [("name", JStr "alice")]);
         ("ref", JStr "refs/heads/a/refs/heads/b");
         ("head_commit", JDict [("timestamp", JStr "2021-04-01T21:30:00Z")])].

(** A pull request opened by an account GitHub no longer reports: [user] is
    null, the sender is named. *)
Definition payload_user_null : json :=
  JDict [("action", JStr "opened");
         ("pull_request",
          JDict [("user", JNull);
                 ("head", JDict [("ref", JStr "dev")]);
                 ("base", JDict [("ref", JStr "main")]);
                 ("created_at", JStr "2021-05-02T10:00:00Z")]);
         ("sender", JDict [("login", JStr "bob")])].

(** A pull request whose head names no branch. *)
Definition payload_head_ref_null : json :=
  JDict [("action", JStr "opened");
         ("pull_request",
          JDict [("user", JDict [("login", JStr "bob")]);
                 ("head", JDict [("ref", JNull)]);
                 ("base", JDict [("ref", JStr "main")]);
                 ("created_at", JStr "2021-05-02T10:00:00Z")])].

(** A push whose sender has an empty login and which names no pusher. *)
Definition payload_empty_login : json :=
  JDict [("ref", JStr "refs/heads/main");
         ("sender", JDict [("login", JStr "")]);
         ("head_commit", JDict [("timestamp", JStr "2021-04-01T21:30:00Z")])].

(* ====================================================================== *)
(** ** The model on concrete inputs *)
(* ====================================================================== *)

Example format_timestamp_utc :
  format_timestamp "2021-04-01T21:30:00Z" = Ok "1st April 2021 - 09:30 PM UTC".
Proof. vm_compute. reflexivity. Qed.

Example format_timestamp_bare :
  format_timestamp "2021-4-2T9:5:07" = Ok "2nd April 2021 - 09:05 AM UTC".
Proof. vm_compute. reflexivity. Qed.

Example format_timestamp_raw :
  format_timestamp "yesterday" = Ok "yesterday".
Proof. vm_compute. reflexivity. Qed.

(** Claim C5: the push payload of scenario A, delivered with discriminator
    [push], is classified as the event [alice / PUSH / no from_branch /
    feature-x / 2021-04-01T21:30:00Z]; that event is what the webhook stores;
    and the formatter renders the stored document, as the poll does, as
    ["alice" pushed to "feature-x" on 1st April 2021 - 09:30 PM UTC]. *)
Theorem scenario_A_push (now oid : string) :
  extract_push_event now payload_A = Some event_A /\
  receive_github_webhook [] oid now "push" (Ok payload_A)
  = (Success oid "alice" "PUSH" "feature-x", [document_A oid]) /\
  create_formatted_message (document_A oid) = Ok message_A /\
  get_events [document_A oid] None 50
  = Ok [mkEventResponse oid "alice" "PUSH" None "feature-x"
                        "2021-04-01T21:30:00Z" message_A].
Proof.
  assert (E : extract_push_event now payload_A = Some event_A) by reflexivity.
  split; [exact E|].
  split.
  { unfold receive_github_webhook. simpl String.eqb. cbv iota.
    rewrite E. reflexivity. }
  split; vm_compute; reflexivity.
Qed.

(* ====================================================================== *)
(** ** Timestamp normalizer *)
(* ====================================================================== *)

Lemma new_datetime_inv (dt dt' : datetime) :
  new_datetime dt = Ok dt' -> dt' = dt /\ valid_datetime dt = true.
Proof.
  unfold new_datetime. destruct (valid_datetime dt); [|discriminate].
  intros [= <-]. split; reflexivity.
Qed.

Lemma new_datetime_raises (dt : datetime) (e : exn) :
  new_datetime dt = Raise e -> e = ValueError.
Proof.
  unfold new_datetime. destruct (valid_datetime dt); congruence.
Qed.

(** The two parsers fail with [ValueError] and nothing else, so the
    handlers of [format_timestamp] let no exception of theirs through. *)
Lemma fromisoformat_raises (s : string) (e : exn) :
  fromisoformat s = Raise e -> e = ValueError.
Proof.
  unfold fromisoformat. destruct (parse_isoformat s).
  - apply new_datetime_raises.
  - congruence.
Qed.

Lemma strptime_raises (s : string) (e : exn) :
  strptime s = Raise e -> e = ValueError.
Proof.
  unfold strptime. destruct (strptime_match s).
  - apply new_datetime_raises.
  - congruence.
Qed.

Lemma days_in_month_le_31 (y m : Z) : (days_in_month y m <= 31)%Z.
Proof.
  unfold days_in_month.
  destruct (m =? 2)%Z; [destruct (is_leap y); lia|].
  destruct ((m =? 4) || (m =? 6) || (m =? 9) || (m =? 11))%Z%bool; lia.
Qed.

Lemma between_spec (lo x hi : Z) :
  between lo x hi = true <-> (lo <= x <= hi)%Z.
Proof. unfold between. rewrite andb_true_iff, !Z.leb_le. tauto. Qed.

Lemma valid_datetime_day (dt : datetime) :
  valid_datetime dt = true -> (1 <= day dt <= 31)%Z.
Proof.
  unfold valid_datetime. rewrite !andb_true_iff, !between_spec.
  pose proof (days_in_month_le_31 (year dt) (month dt)). lia.
Qed.

Lemma fromisoformat_day (s : string) (dt : datetime) :
  fromisoformat s = Ok dt -> (1 <= day dt <= 31)%Z.
Proof.
  unfold fromisoformat. destruct (parse_isoformat s) as [d|]; [|discriminate].
  intros H. apply new_datetime_inv in H as [-> H]. now apply valid_datetime_day.
Qed.

Lemma strptime_day (s : string) (dt : datetime) :
  strptime s = Ok dt -> (1 <= day dt <= 31)%Z.
Proof.
  unfold strptime. destruct (strptime_match s) as [d|]; [|discriminate].
  intros H. apply new_datetime_inv in H as [-> H]. now apply valid_datetime_day.
Qed.

Lemma days_of_month_ok :
  forallb (fun n => day_ok (Z.of_nat n)) (seq 1 31) = true.
Proof. vm_compute. reflexivity. Qed.

Lemma day_ok_in_range (d : Z) : (1 <= d <= 31)%Z -> day_ok d = true.
Proof.
  intros H. pose proof days_of_month_ok as A.
  rewrite forallb_forall in A.
  specialize (A (Z.to_nat d)). rewrite Z2Nat.id in A by lia.
  apply A. apply in_seq. lia.
Qed.

Lemma ordinal_suffix_in_range (d : Z) :
  (1 <= d <= 31)%Z ->
  ordinal_suffix d = Ok (suffix_table d) /\
  no_percent (str_of_int d ++ suffix_table d) = true.
Proof.
  intros H. apply day_ok_in_range in H. unfold day_ok in H.
  destruct (ordinal_suffix d) as [sfx|]; [|discriminate].
  apply andb_true_iff in H as [E N]. apply String.eqb_eq in E. subst sfx.
  split; [reflexivity | exact N].
Qed.

Lemma string_app_assoc (a b c : string) : (a ++ b) ++ c = a ++ b ++ c.
Proof. induction a as [|x a IH]; simpl; [reflexivity | now rewrite IH]. Qed.

(** Text without a conversion specification is copied by [strftime]. *)
Lemma strftime_literal (dt : datetime) (lit fmt : string) :
  no_percent lit = true ->
  strftime dt (lit ++ fmt) = lit ++ strftime dt fmt.
Proof.
  induction lit as [|c lit IH]; intros H; [reflexivity|].
  simpl in H. apply andb_true_iff in H as [Hc Hl].
  simpl. destruct (Ascii.eqb c "%"); [discriminate|].
  now rewrite IH.
Qed.

Lemma render_in_range (dt : datetime) :
  (1 <= day dt <= 31)%Z ->
  render dt = Ok (str_of_int (day dt) ++ suffix_table (day dt)
                  ++ strftime dt " %B %Y - %I:%M %p UTC").
Proof.
  intros H. apply ordinal_suffix_in_range in H as [E N].
  unfold render. rewrite E. cbn [bind]. f_equal.
  rewrite <- !string_app_assoc. now apply strftime_literal.
Qed.

(** [format_timestamp] returns on every string. *)
Lemma format_timestamp_total (s : string) :
  exists out, format_timestamp s = Ok out.
Proof.
  unfold format_timestamp.
  destruct (fromisoformat _) as [dt|e] eqn:E1.
  - apply fromisoformat_day in E1. rewrite (render_in_range dt E1). eauto.
  - apply fromisoformat_raises in E1 as ->.
    destruct (strptime s) as [dt|e] eqn:E2.
    + apply strptime_day in E2.
      rewrite (render_in_range (replace_tzinfo_utc dt) E2). eauto.
    + apply strptime_raises in E2 as ->. eauto.
Qed.

(** Claim C7: for every timestamp that parses, the display is the day
    number followed by the suffix of the fixed table (1, 21, 31: st; 2, 22:
    nd; 3, 23: rd; any other day, 4 to 20 included: th), then the month,
    year and time. *)
Theorem format_timestamp_ordinal_suffix (s : string) (dt : datetime) :
  parsed_as s dt ->
  (1 <= day dt <= 31)%Z /\
  ordinal_suffix (day dt) = Ok (suffix_table (day dt)) /\
  format_timestamp s
  = Ok (str_of_int (day dt) ++ suffix_table (day dt)
        ++ strftime dt " %B %Y - %I:%M %p UTC").
Proof.
  intros H.
  assert (D : (1 <= day dt <= 31)%Z).
  { destruct H as [H | (_ & dt0 & H & ->)].
    - now apply fromisoformat_day in H.
    - now apply strptime_day in H. }
  split; [exact D|]. split; [now apply ordinal_suffix_in_range|].
  unfold format_timestamp.
  destruct H as [H | (H & dt0 & H0 & ->)]; rewrite H.
  - now apply render_in_range.
  - rewrite H0. now apply render_in_range.
Qed.

Lemma format_timestamp_ordinal_suffix_witness :
  parsed_as "2021-05-22T10:00:00Z"
            (mkdatetime 2021 5 22 10 0 0 0 (Some 0%Z)) /\
  format_timestamp "2021-05-22T10:00:00Z" = Ok "22nd May 2021 - 10:00 AM UTC".
Proof.
  assert (P : parsed_as "2021-05-22T10:00:00Z"
                        (mkdatetime 2021 5 22 10 0 0 0 (Some 0%Z)))
    by (left; vm_compute; reflexivity).
  split; [exact P|].
  exact (proj2 (proj2 (format_timestamp_ordinal_suffix _ _ P))).
Defined.

(** Claim C8: when both parse attempts fail on a string, [format_timestamp]
    returns that string as it is, and raises nothing. *)
Theorem format_timestamp_fail_open (s : string) :
  (forall dt, fromisoformat (str_replace s "Z" "+00:00") <> Ok dt) ->
  (forall dt, strptime s <> Ok dt) ->
  format_timestamp s = Ok s.
Proof.
  intros H1 H2. unfold format_timestamp.
  destruct (fromisoformat _) as [dt|e] eqn:E1; [now destruct (H1 dt)|].
  apply fromisoformat_raises in E1 as ->.
  destruct (strptime s) as [dt|e] eqn:E2; [now destruct (H2 dt)|].
  now apply strptime_raises in E2 as ->.
Qed.

Lemma format_timestamp_fail_open_witness :
  format_timestamp "last Tuesday" = Ok "last Tuesday".
Proof.
  apply format_timestamp_fail_open; intros dt; vm_compute; discriminate.
Defined.

(* ====================================================================== *)
(** ** Polling *)
(* ====================================================================== *)

Lemma ltb_not_leb (a b : string) : (a <? b) = true -> (b <=? a) = false.
Proof.
  unfold String.ltb, String.leb. rewrite (String.compare_antisym b a).
  destruct (a ?= b)%string; simpl; congruence.
Qed.

Lemma leb_false_desc (a b : string) : (a <=? b) = false -> desc a b.
Proof.
  intros H. unfold desc. destruct (String.leb_total a b) as [E|E]; congruence.
Qed.

Lemma compare_le_trans (a b c : string) :
  (a ?= b) <> Gt -> (b ?= c) <> Gt -> (a ?= c) <> Gt.
Proof.
  revert b c. induction a as [|x a IH]; intros [|y b] [|z c]; simpl;
    try congruence.
  unfold Ascii.compare.
  destruct (N.compare_spec (N_of_ascii x) (N_of_ascii y)) as [E1|E1|E1];
    destruct (N.compare_spec (N_of_ascii y) (N_of_ascii z)) as [E2|E2|E2];
    destruct (N.compare_spec (N_of_ascii x) (N_of_ascii z)) as [E3|E3|E3];
    try congruence; try lia; try (intros; apply (IH b c); assumption).
Qed.

Lemma leb_trans (a b c : string) :
  (a <=? b) = true -> (b <=? c) = true -> (a <=? c) = true.
Proof.
  unfold String.leb. intros H1 H2.
  pose proof (compare_le_trans a b c) as T.
  destruct (a ?= b); destruct (b ?= c); destruct (a ?= c);
    try reflexivity; try discriminate; exfalso; apply T; congruence.
Qed.

Lemma desc_trans (a b c : string) : desc a b -> desc b c -> desc a c.
Proof. unfold desc. intros H1 H2. now apply leb_trans with b. Qed.

(** In a list sorted descending every entry is at or above all that
    follow. *)
Lemma sorted_desc_strongly (l : list string) :
  Sorted desc l -> StronglySorted desc l.
Proof. apply Sorted_StronglySorted. exact desc_trans. Qed.

Lemma create_formatted_message_total (d : StoredEvent) :
  exists msg, create_formatted_message d = Ok msg.
Proof.
  unfold create_formatted_message.
  destruct (format_timestamp_total (doc_timestamp d)) as [t ->]. cbn [bind].
  destruct (_ =? _); [eauto|].
  destruct (_ =? _); [eauto|].
  destruct (_ =? _); eauto.
Qed.

(** The response list has one record per document, in the same order and
    with the same stored fields. *)
Lemma to_responses_total (l : list StoredEvent) :
  exists rs, to_responses l = Ok rs /\
             map resp_timestamp rs = map doc_timestamp l /\
             map id rs = map _id l.
Proof.
  induction l as [|d l (rs & E & T & I)]; [exists []; repeat split|].
  destruct (create_formatted_message_total d) as [msg M].
  eexists. simpl. rewrite M, E. cbn [bind]. split; [reflexivity|].
  simpl. now rewrite T, I.
Qed.

Lemma insert_desc_hd (d x : StoredEvent) (l : list StoredEvent) :
  HdRel doc_desc x l -> doc_desc x d -> HdRel doc_desc x (insert_desc d l).
Proof.
  intros H Hd. destruct l as [|y l]; simpl.
  - now constructor.
  - destruct (_ <=? _); constructor; [exact Hd|]. now inversion H.
Qed.

Lemma insert_desc_sorted (d : StoredEvent) (l : list StoredEvent) :
  Sorted doc_desc l -> Sorted doc_desc (insert_desc d l).
Proof.
  induction 1 as [|x l S IH H]; simpl.
  - repeat constructor.
  - destruct (doc_timestamp x <=? doc_timestamp d) eqn:E.
    + constructor; [now constructor|]. constructor. exact E.
    + constructor; [exact IH|].
      apply insert_desc_hd; [exact H|]. now apply leb_false_desc.
Qed.

Lemma sort_desc_sorted (l : list StoredEvent) : Sorted doc_desc (sort_desc l).
Proof.
  induction l as [|d l IH]; simpl; [constructor|].
  now apply insert_desc_sorted.
Qed.

Lemma insert_desc_Forall (P : StoredEvent -> Prop) (d : StoredEvent)
    (l : list StoredEvent) :
  P d -> Forall P l -> Forall P (insert_desc d l).
Proof.
  intros Hd. induction 1 as [|x l Hx Hl IH]; simpl.
  - now repeat constructor.
  - destruct (_ <=? _); repeat constructor; assumption.
Qed.

Lemma sort_desc_Forall (P : StoredEvent -> Prop) (l : list StoredEvent) :
  Forall P l -> Forall P (sort_desc l).
Proof.
  induction 1 as [|x l Hx Hl IH]; simpl; [constructor|].
  now apply insert_desc_Forall.
Qed.

Lemma insert_desc_length (d : StoredEvent) (l : list StoredEvent) :
  List.length (insert_desc d l) = S (List.length l).
Proof.
  induction l as [|x l IH]; simpl; [reflexivity|].
  destruct (_ <=? _); simpl; [reflexivity | now rewrite IH].
Qed.

Lemma sort_desc_length (l : list StoredEvent) :
  List.length (sort_desc l) = List.length l.
Proof.
  induction l as [|x l IH]; simpl; [reflexivity|].
  now rewrite insert_desc_length, IH.
Qed.

Section Firstn.
Context {A : Type}.

Lemma firstn_Forall (P : A -> Prop) (n : nat) (l : list A) :
  Forall P l -> Forall P (firstn n l).
Proof.
  intros H. revert n. induction H as [|x l Hx Hl IH]; intros [|n]; simpl;
    constructor; auto.
Qed.

Lemma firstn_sorted (R : A -> A -> Prop) (n : nat) (l : list A) :
  Sorted R l -> Sorted R (firstn n l).
Proof.
  intros H. revert n. induction H as [|x l S IH H]; intros [|n]; simpl;
    try constructor; auto.
  destruct H as [|y l' Hxy]; destruct n; simpl; constructor. exact Hxy.
Qed.
End Firstn.

Lemma cursor_limit_Forall (P : StoredEvent -> Prop) (n : Z)
    (l : list StoredEvent) :
  Forall P l -> Forall P (cursor_limit n l).
Proof.
  intros H. unfold cursor_limit. destruct (n =? 0)%Z; [exact H|].
  now apply firstn_Forall.
Qed.

Lemma cursor_limit_sorted (n : Z) (l : list StoredEvent) :
  Sorted doc_desc l -> Sorted doc_desc (cursor_limit n l).
Proof.
  intros H. unfold cursor_limit. destruct (n =? 0)%Z; [exact H|].
  now apply firstn_sorted.
Qed.

Lemma find_Forall (coll : collection) (q : query) :
  Forall (fun d => matches q d = true) (find coll q).
Proof.
  apply Forall_forall. intros d H. now apply filter_In in H.
Qed.

Lemma sorted_map_timestamp (l : list StoredEvent) :
  Sorted doc_desc l -> Sorted desc (map doc_timestamp l).
Proof.
  induction 1 as [|x l S IH H]; simpl; constructor; [exact IH|].
  destruct H; simpl; constructor. assumption.
Qed.

(** What [get_events] answers, by the sign of [limit]: a negative one is
    refused by [to_list]; otherwise the answer lists the first [limit]
    documents of the sorted cursor. *)
Lemma get_events_inv (coll : collection) (since : option string) (limit : Z) :
  let q := match since with
           | Some s => if truthy (JStr s) then QTimestampGt s else QAll
           | None => QAll
           end in
  if (limit <? 0)%Z then get_events coll since limit = Raise ValueError
  else exists rs,
      get_events coll since limit = Ok rs /\
      let events := firstn (Z.to_nat limit)
                           (cursor_limit limit (sort_desc (find coll q))) in
      map resp_timestamp rs = map doc_timestamp events /\
      map id rs = map _id events.
Proof.
  intros q. unfold get_events, to_list. fold q.
  destruct (limit <? 0)%Z; [reflexivity|]. cbn [bind].
  destruct (to_responses_total
              (firstn (Z.to_nat limit)
                      (cursor_limit limit (sort_desc (find coll q)))))
    as (rs & E & T & I).
  exists rs. auto.
Qed.

(** Claim C1, as the code has it: for a poll with a non-empty watermark [T]
    and any integer limit [L], a negative [L] is refused, and otherwise the
    answer holds only records whose stored timestamp is strictly above [T]
    (none is [<= T]), at most [L] of them, in descending order of the stored
    timestamp. *)
Theorem get_events_since (coll : collection) (T : string) (L : Z) :
  T <> "" ->
  match get_events coll (Some T) L with
  | Ok rs =>
      Forall (fun r => (T <? resp_timestamp r) = true /\
                       (resp_timestamp r <=? T) = false) rs /\
      (Z.of_nat (List.length rs) <= L)%Z /\
      StronglySorted desc (map resp_timestamp rs)
  | Raise _ => (L < 0)%Z
  end.
Proof.
  intros HT. pose proof (get_events_inv coll (Some T) L) as H.
  cbv zeta iota beta in H.
  assert (Q : truthy (JStr T) = true).
  { simpl. now apply negb_true_iff, String.eqb_neq. }
  rewrite Q in H.
  destruct (L <? 0)%Z eqn:EL.
  - rewrite H. now apply Z.ltb_lt.
  - destruct H as (rs & -> & HT' & _). apply Z.ltb_ge in EL.
    set (cur := cursor_limit L (sort_desc (find coll (QTimestampGt T)))) in *.
    assert (F : Forall (fun d => matches (QTimestampGt T) d = true) cur).
    { apply cursor_limit_Forall, sort_desc_Forall, find_Forall. }
    assert (S : Sorted doc_desc cur).
    { apply cursor_limit_sorted, sort_desc_sorted. }
    split; [|split].
    + apply (firstn_Forall _ (Z.to_nat L)) in F.
      rewrite Forall_forall in F. apply Forall_forall. intros r Hr.
      apply (in_map resp_timestamp) in Hr. rewrite HT' in Hr.
      apply in_map_iff in Hr as (d & <- & Hd). apply F in Hd. simpl in Hd.
      split; [exact Hd | now apply ltb_not_leb].
    + rewrite <- (length_map resp_timestamp), HT', length_map.
      pose proof (firstn_le_length (Z.to_nat L) cur). lia.
    + rewrite HT'.
      now apply sorted_desc_strongly, sorted_map_timestamp, firstn_sorted.
Qed.

Lemma get_events_since_witness :
  exists rs,
    get_events three_events (Some "2021-04-01T21:30:00Z") 5 = Ok rs /\
    map id rs = ["a3"; "a2"] /\
    StronglySorted desc (map resp_timestamp rs).
Proof.
  assert (N : "2021-04-01T21:30:00Z" <> "") by discriminate.
  pose proof (get_events_since three_events "2021-04-01T21:30:00Z" 5 N) as H.
  destruct (get_events three_events (Some "2021-04-01T21:30:00Z") 5)
    as [rs|e] eqn:E; [|exfalso; lia].
  exists rs. split; [reflexivity|]. split; [|apply H].
  vm_compute in E. injection E as <-. reflexivity.
Defined.

(** Claim C1 as stated fails when the watermark supplied is the empty
    string: the record stored for the push above has the timestamp [""],
    which is [<= ""], and the poll returns it. *)
Lemma get_events_since_counterexample :
  let coll := snd (receive_github_webhook
                     [] "65f0c0ffee0123456789abcd"
                     "2024-01-01T00:00:00+00:00" "push"
                     (Ok payload_empty_timestamp)) in
  exists r, get_events coll (Some "") 50 = Ok [r] /\
            (resp_timestamp r <=? "") = true.
Proof. vm_compute. eexists. split; reflexivity. Qed.

Lemma find_all (coll : collection) : find coll QAll = coll.
Proof.
  unfold find. induction coll as [|d l IH]; simpl; [reflexivity|].
  now rewrite IH.
Qed.

(** Claim C10: polling with [since] the empty string answers exactly as
    polling with [since] left out, and what it answers is built from the
    whole collection: no timestamp filter takes part. *)
Theorem get_events_empty_since (coll : collection) (L : Z) :
  get_events coll (Some "") L = get_events coll None L /\
  get_events coll (Some "") L
  = (events <- to_list L (cursor_limit L (sort_desc coll)) ;;
     to_responses events).
Proof.
  split; [reflexivity|].
  unfold get_events. simpl truthy. cbv iota. now rewrite find_all.
Qed.

(* ====================================================================== *)
(** ** Event classifier *)
(* ====================================================================== *)

Lemma py_get_Ok (obj : json) (k : string) (d v : json) :
  py_get obj k d = Ok v -> is_dict obj = true /\ v = get_default obj k d.
Proof. destruct obj; simpl; intros [= <-] || discriminate; auto. Qed.

Lemma py_get_dict (obj : json) (k : string) (d : json) :
  is_dict obj = true -> py_get obj k d = Ok (get_default obj k d).
Proof. destruct obj; simpl; intros; reflexivity || discriminate. Qed.

Lemma py_get_not_dict (obj : json) (k : string) (d : json) :
  is_dict obj = false -> exists e, py_get obj k d = Raise e.
Proof. destruct obj; simpl; intros; discriminate || eauto. Qed.

Lemma validate_str_Ok (v : json) (s : string) :
  validate_str v = Ok s -> v = JStr s.
Proof. destruct v; simpl; intros [= <-] || discriminate; reflexivity. Qed.

Lemma validate_optional_str_Ok (v : json) (o : option string) :
  validate_optional_str v = Ok o ->
  (v = JNull /\ o = None) \/ (exists s, v = JStr s /\ o = Some s).
Proof.
  destruct v; simpl; intros [= <-] || discriminate; [left | right]; eauto.
Qed.

Lemma new_GitHubEvent_Ok (a : json) (act : ActionType) (f t ts : json)
    (e : GitHubEvent) :
  new_GitHubEvent a act f t ts = Ok e ->
  a = JStr (author e) /\ action e = act /\
  validate_optional_str f = Ok (from_branch e) /\
  t = JStr (to_branch e) /\ ts = JStr (timestamp e).
Proof.
  unfold new_GitHubEvent.
  destruct (validate_str a) as [a'|] eqn:Ea; [|discriminate].
  destruct (validate_optional_str f) as [f'|] eqn:Ef; [|discriminate].
  destruct (validate_str t) as [t'|] eqn:Et; [|discriminate].
  destruct (validate_str ts) as [ts'|] eqn:Ets; [|discriminate].
  cbn [bind]. intros [= <-]. simpl.
  apply validate_str_Ok in Ea, Et, Ets. auto.
Qed.

(** Take one step of a computation that returned: the first call returned
    too. *)
Tactic Notation "bind_step" hyp(H) "as" ident(v) ident(E) :=
  lazymatch type of H with
  | bind ?c _ = Ok _ =>
      destruct c as [v|] eqn:E; [cbn [bind] in H | discriminate H]
  end.

(** The same for a [get]: its receiver was a dict ([D]) and its value is
    the one [get_default] computes. *)
Tactic Notation "get_step" hyp(H) "as" ident(D) :=
  lazymatch type of H with
  | bind (py_get ?o ?k ?d) _ = Ok _ =>
      let v := fresh "v" in
      let E := fresh "E" in
      destruct (py_get o k d) as [v|] eqn:E; [cbn [bind] in H | discriminate H];
      apply py_get_Ok in E as [D E]; subst v
  end.

Lemma resolve_author_step (primary payload : json) (a : json) :
  (if negb (truthy primary)
   then sender <- py_get payload "sender" (JDict []) ;;
        py_get sender "login" (JStr "Unknown")
   else Ok primary) = Ok a ->
  a = resolve_author primary payload /\
  (truthy primary
   || is_dict (get_default payload "sender" (JDict [])))%bool = true.
Proof.
  unfold resolve_author, sender_login. destruct (truthy primary); simpl.
  - now intros [= <-].
  - intros H. get_step H as D. apply py_get_Ok in H as [D' ->]. auto.
Qed.

Lemma resolve_author_dict (primary payload : json) :
  is_dict payload = true ->
  (truthy primary
   || is_dict (get_default payload "sender" (JDict [])))%bool = true ->
  (if negb (truthy primary)
   then sender <- py_get payload "sender" (JDict []) ;;
        py_get sender "login" (JStr "Unknown")
   else Ok primary) = Ok (resolve_author primary payload).
Proof.
  unfold resolve_author, sender_login. intros D.
  destruct (truthy primary); simpl; [reflexivity|]. intros S.
  rewrite (py_get_dict payload) by exact D. cbn [bind].
  now rewrite py_get_dict.
Qed.

(** What an event of the push path is made of. *)
Lemma extract_push_event_Some (now : string) (payload : json)
    (e : GitHubEvent) :
  extract_push_event now payload = Some e ->
  JStr (author e) = resolve_author (pusher_name payload) payload /\
  action e = PUSH /\
  from_branch e = None /\
  (let ref := get_default payload "ref" (JStr "") in
   if truthy ref
   then exists s, ref = JStr s /\ to_branch e = str_replace s "refs/heads/" ""
   else to_branch e = "unknown") /\
  JStr (timestamp e)
  = get_default (get_default payload "head_commit" (JDict [])) "timestamp"
                (JStr now).
Proof.
  unfold extract_push_event, except_none.
  destruct (extract_push_event_body now payload) as [r|] eqn:H; [|discriminate].
  intros ->. unfold extract_push_event_body in H.
  get_step H as D1. get_step H as D2. bind_step H as a Ea.
  apply resolve_author_step in Ea as [Ea _].
  get_step H as D3. bind_step H as tb Etb.
  get_step H as D4. get_step H as D5. bind_step H as ev Eev.
  injection H as <-.
  apply new_GitHubEvent_Ok in Eev as (Ha & Hact & Hf & Ht & Hts).
  simpl in Hf. injection Hf as Hf. injection Ht as Ht.
  unfold pusher_name. rewrite <- Ha, <- Hts, <- Hf, <- Ht.
  repeat split; auto.
  cbv zeta. destruct (truthy (get_default payload "ref" (JStr ""))).
  - destruct (get_default payload "ref" (JStr "")); try discriminate.
    simpl in Etb. injection Etb as <-. eauto.
  - now injection Etb as <-.
Qed.

(** What the body of the pull-request path returns when it raises nothing:
    the three branches, in the order of the code. *)
Lemma extract_pull_request_event_body_Ok (now : string) (payload : json)
    (r : option GitHubEvent) :
  extract_pull_request_event_body now payload = Ok r ->
  if is_merge payload then
    exists e, r = Some e /\
      pr_event payload MERGE (merged_by_login payload)
               (get_default (pull_request_of payload) "merged_at" JNull) e
  else if is_open payload then
    exists e, r = Some e /\
      pr_event payload PULL_REQUEST
               (resolve_author (user_login payload) payload)
               (get_default (pull_request_of payload) "created_at" (JStr now))
               e
  else r = None.
Proof.
  intros H. unfold extract_pull_request_event_body in H.
  get_step H as D1. get_step H as D2. get_step H as D3. get_step H as D4.
  bind_step H as a Ea. apply resolve_author_step in Ea as [Ea _].
  get_step H as D5. get_step H as D6. get_step H as D7. get_step H as D8.
  get_step H as D9. get_step H as D10.
  fold (pull_request_of payload) in *.
  fold (user_login payload) in Ea.
  unfold is_merge, is_open.
  destruct (eq_str (get_default payload "action" (JStr "")) "closed"
            && truthy (get_default (pull_request_of payload) "merged"
                                   (JBool false))
            && truthy (get_default (pull_request_of payload) "merged_at"
                                   JNull)).
  - get_step H as D11. get_step H as D12. bind_step H as ev Eev.
    injection H as <-. exists ev. split; [reflexivity|].
    apply new_GitHubEvent_Ok in Eev as (Ha & Hact & Hf & Ht & Hts).
    unfold pr_event, merged_by_login, head_ref, base_ref. subst a.
    repeat split; auto.
  - destruct (eq_str (get_default payload "action" (JStr "")) "opened"
              || eq_str (get_default payload "action" (JStr "")) "reopened").
    + get_step H as D11. bind_step H as ev Eev.
      injection H as <-. exists ev. split; [reflexivity|].
      apply new_GitHubEvent_Ok in Eev as (Ha & Hact & Hf & Ht & Hts).
      unfold pr_event, head_ref, base_ref. subst a.
      repeat split; auto.
    + now injection H as <-.
Qed.

Lemma extract_pull_request_event_Some (now : string) (payload : json)
    (e : GitHubEvent) :
  extract_pull_request_event now payload = Some e ->
  (is_merge payload = true /\
   pr_event payload MERGE (merged_by_login payload)
            (get_default (pull_request_of payload) "merged_at" JNull) e) \/
  (is_merge payload = false /\ is_open payload = true /\
   pr_event payload PULL_REQUEST
            (resolve_author (user_login payload) payload)
            (get_default (pull_request_of payload) "created_at" (JStr now))
            e).
Proof.
  unfold extract_pull_request_event, except_none.
  destruct (extract_pull_request_event_body now payload) as [r|] eqn:H;
    [|discriminate].
  intros ->. apply extract_pull_request_event_body_Ok in H.
  destruct (is_merge payload).
  - destruct H as (e' & [= <-] & P). left. auto.
  - destruct (is_open payload).
    + destruct H as (e' & [= <-] & P). right. auto.
    + discriminate.
Qed.

Lemma is_str_default (obj : json) (k a b : string) :
  is_str (get_default obj k (JStr a)) = is_str (get_default obj k (JStr b)).
Proof.
  destruct obj; try reflexivity. simpl. now destruct (lookup k kvs).
Qed.

Lemma is_str_inv (v : json) : is_str v = true -> exists s, v = JStr s.
Proof. destruct v; try discriminate. eauto. Qed.

Lemma extract_push_event_body_shape (now : string) (payload : json)
    (r : option GitHubEvent) :
  extract_push_event_body now payload = Ok r ->
  push_shape_ok payload = true /\ exists e, r = Some e.
Proof.
  intros H. unfold extract_push_event_body in H.
  get_step H as D1. get_step H as D2. bind_step H as a Ea.
  apply resolve_author_step in Ea as [Ea Sa].
  get_step H as D3. bind_step H as tb Etb.
  get_step H as D4. get_step H as D5. bind_step H as ev Eev.
  injection H as <-. split; [|eauto].
  apply new_GitHubEvent_Ok in Eev as (Ha & _ & _ & _ & Hts).
  unfold push_shape_ok. fold (pusher_name payload) in *.
  rewrite D2, Sa, D5. rewrite <- Ea, Ha.
  rewrite (is_str_default _ "timestamp" "" now), Hts. simpl.
  destruct (truthy (get_default payload "ref" (JStr ""))); [|reflexivity].
  destruct (get_default payload "ref" (JStr "")); try discriminate.
  reflexivity.
Qed.

Lemma extract_push_event_body_ok (now : string) (payload : json) :
  is_dict payload = true ->
  push_shape_ok payload = true ->
  exists e, extract_push_event_body now payload = Ok (Some e).
Proof.
  intros D. unfold push_shape_ok. rewrite !andb_true_iff.
  intros (((((P & S) & A) & R) & HC) & T).
  unfold extract_push_event_body.
  rewrite (py_get_dict payload) by exact D. cbn [bind].
  rewrite py_get_dict by exact P. cbn [bind].
  fold (pusher_name payload).
  rewrite (resolve_author_dict _ _ D S). cbn [bind].
  rewrite (py_get_dict payload) by exact D. cbn [bind].
  rewrite (py_get_dict payload) by exact D.
  rewrite (is_str_default _ "timestamp" "" now) in T.
  apply is_str_inv in A as [a ->]. apply is_str_inv in T as [t T].
  destruct (truthy (get_default payload "ref" (JStr ""))) eqn:ER.
  - simpl in R. apply is_str_inv in R as [s ->]. cbn [py_replace bind].
    rewrite py_get_dict by exact HC. rewrite T. cbn. eauto.
  - cbn [bind]. rewrite py_get_dict by exact HC. rewrite T. cbn. eauto.
Qed.

(** *** The push path *)

(** Claim C3, as the code has it: a payload dictionary yields an event
    exactly when it has the shape [push_shape_ok] describes; with every field
    missing the defaults give [Unknown / unknown / now]; and no event is
    produced only when the extraction raised, which is what happens on every
    other payload dictionary. *)
Theorem extract_push_event_produces (now : string)
    (kvs : list (string * json)) :
  ((exists e, extract_push_event now (JDict kvs) = Some e)
   <-> push_shape_ok (JDict kvs) = true) /\
  (extract_push_event now (JDict kvs) = None
   <-> exists x, extract_push_event_body now (JDict kvs) = Raise x) /\
  extract_push_event now (JDict [])
  = Some (mkGitHubEvent "Unknown" PUSH None "unknown" now).
Proof.
  unfold extract_push_event, except_none.
  split; [|split; [|reflexivity]].
  - split.
    + intros [e H].
      destruct (extract_push_event_body now (JDict kvs)) as [r|] eqn:B;
        [|discriminate].
      now apply extract_push_event_body_shape in B as [S _].
    + intros S.
      destruct (extract_push_event_body_ok now (JDict kvs) eq_refl S)
        as [e ->]. eauto.
  - split.
    + destruct (extract_push_event_body now (JDict kvs)) as [r|x] eqn:B;
        [|eauto].
      apply extract_push_event_body_shape in B as (_ & e & ->). discriminate.
    + now intros [x ->].
Qed.

Lemma extract_push_event_produces_witness :
  exists e, extract_push_event "2024-01-01T00:00:00+00:00" payload_A = Some e.
Proof.
  apply (proj1 (extract_push_event_produces "2024-01-01T00:00:00+00:00" _)).
  reflexivity.
Defined.

(** Claim C3 as stated fails: a [head_commit] that is present but not an
    object is not absorbed by a default, the classifier yields no event. *)
Lemma extract_push_event_produces_counterexample :
  extract_push_event "2024-01-01T00:00:00+00:00" payload_head_commit_null
  = None.
Proof. reflexivity. Qed.

(** Where [replace] and the stripping of the prefix agree: the match at
    the head of [refs/heads/<rest>] is removed, and the scan goes on in
    [rest], which comes out unchanged when [refs/heads/] does not occur in
    it. *)
Lemma str_replace_refs_heads (rest : string) :
  str_replace ("refs/heads/" ++ rest) "refs/heads/" ""
  = str_replace rest "refs/heads/" "".
Proof. destruct rest; reflexivity. Qed.

Lemma prefix_occurs (p s : string) :
  prefix p s = true -> exists b, s = p ++ b.
Proof.
  revert s. induction p as [|x p IH]; intros s H; [exists s; reflexivity|].
  destruct s as [|c s]; [discriminate|]. simpl in H.
  destruct (ascii_dec x c) as [->|]; [|discriminate].
  apply IH in H as [b ->]. exists b. reflexivity.
Qed.

Lemma replace_from_no_occurrence (old s : string) :
  (forall a b, s <> a ++ old ++ b) -> replace_from old "" 0 s = s.
Proof.
  induction s as [|c s IH]; intros H; [reflexivity|].
  cbn [replace_from].
  destruct (prefix old (String c s)) eqn:P.
  - apply prefix_occurs in P as [b P]. now destruct (H "" b).
  - f_equal. apply IH. intros a b E. apply (H (String c a) b).
    simpl. now rewrite E.
Qed.

Lemma str_replace_strips_prefix (rest : string) :
  (forall a b, rest <> a ++ "refs/heads/" ++ b) ->
  str_replace ("refs/heads/" ++ rest) "refs/heads/" ""
  = without_prefix "refs/heads/" ("refs/heads/" ++ rest).
Proof.
  intros H. rewrite str_replace_refs_heads.
  unfold str_replace. now rewrite replace_from_no_occurrence.
Qed.

(** Claim C4 on the push of branch [a/refs/heads/b]: the event's
    [to_branch] is [a/b], every occurrence of [refs/heads/] being removed,
    where stripping the prefix leaves [a/refs/heads/b]. *)
Theorem extract_push_event_ref_replace (now : string) :
  extract_push_event now payload_nested_ref
  = Some (mkGitHubEvent "alice" PUSH None "a/b" "2021-04-01T21:30:00Z") /\
  without_prefix "refs/heads/" "refs/heads/a/refs/heads/b"
  = "a/refs/heads/b" /\
  str_replace "refs/heads/a/refs/heads/b" "refs/heads/" ""
  <> without_prefix "refs/heads/" "refs/heads/a/refs/heads/b".
Proof. repeat split. vm_compute. discriminate. Qed.

(** *** The pull-request path *)

Lemma new_GitHubEvent_validates (a : json) (act : ActionType)
    (f t ts : json) :
  is_str a = true -> is_optional_str f = true -> is_str t = true ->
  is_str ts = true ->
  exists e, new_GitHubEvent a act f t ts = Ok e.
Proof.
  intros Ha Hf Ht Hts.
  apply is_str_inv in Ha as [a' ->]. apply is_str_inv in Ht as [t' ->].
  apply is_str_inv in Hts as [ts' ->].
  destruct f; try discriminate; cbn; eauto.
Qed.

Lemma new_GitHubEvent_shape (a : json) (act : ActionType) (f t ts : json)
    (e : GitHubEvent) :
  new_GitHubEvent a act f t ts = Ok e ->
  is_str a = true /\ is_optional_str f = true /\ is_str t = true /\
  is_str ts = true.
Proof.
  intros H. apply new_GitHubEvent_Ok in H as (-> & _ & F & -> & ->).
  repeat split. apply validate_optional_str_Ok in F as [[-> _] | (x & -> & _)];
    reflexivity.
Qed.

(** The body of the pull-request path returns exactly on the payloads of
    [pull_request_shape_ok]; on any other it raises. *)
Lemma extract_pull_request_event_body_shape (now : string) (payload : json)
    (r : option GitHubEvent) :
  extract_pull_request_event_body now payload = Ok r ->
  pull_request_shape_ok payload = true.
Proof.
  intros H. unfold extract_pull_request_event_body in H.
  get_step H as D1. get_step H as D2. get_step H as D3. get_step H as D4.
  bind_step H as a Ea. apply resolve_author_step in Ea as [Ea Sa].
  get_step H as D5. get_step H as D6. get_step H as D7. get_step H as D8.
  get_step H as D9. get_step H as D10.
  fold (pull_request_of payload) in *. fold (user_login payload) in *.
  unfold pull_request_shape_ok. rewrite D1, D3, D4, Sa, D7, D8.
  cbn [andb]. unfold is_merge, is_open.
  destruct (eq_str (get_default payload "action" (JStr "")) "closed"
            && truthy (get_default (pull_request_of payload) "merged"
                                   (JBool false))
            && truthy (get_default (pull_request_of payload) "merged_at"
                                   JNull)).
  - get_step H as D11. get_step H as D12. bind_step H as ev Eev.
    apply new_GitHubEvent_shape in Eev as (A & F & T & TS).
    unfold merged_by_login, head_ref, base_ref. subst a.
    now rewrite D12, A, F, T, TS.
  - destruct (eq_str (get_default payload "action" (JStr "")) "opened"
              || eq_str (get_default payload "action" (JStr "")) "reopened");
      [|reflexivity].
    get_step H as D11. bind_step H as ev Eev.
    apply new_GitHubEvent_shape in Eev as (A & F & T & TS).
    unfold head_ref, base_ref. subst a.
    rewrite (is_str_default _ "created_at" "" now).
    now rewrite A, F, T, TS.
Qed.

Lemma extract_pull_request_event_body_ok (now : string) (payload : json) :
  pull_request_shape_ok payload = true ->
  exists r, extract_pull_request_event_body now payload = Ok r.
Proof.
  unfold pull_request_shape_ok. cbv zeta. rewrite !andb_true_iff.
  intros ((((((D & P) & U) & S) & Hd) & B) & R).
  unfold extract_pull_request_event_body.
  rewrite (py_get_dict payload) by exact D. cbn [bind].
  rewrite (py_get_dict payload) by exact D. cbn [bind].
  fold (pull_request_of payload).
  rewrite (py_get_dict (pull_request_of payload)) by exact P. cbn [bind].
  rewrite py_get_dict by exact U. cbn [bind].
  fold (user_login payload).
  rewrite (resolve_author_dict _ _ D S). cbn [bind].
  rewrite (py_get_dict (pull_request_of payload)) by exact P. cbn [bind].
  rewrite (py_get_dict (pull_request_of payload)) by exact P. cbn [bind].
  rewrite py_get_dict by exact Hd. cbn [bind].
  rewrite py_get_dict by exact B. cbn [bind].
  rewrite (py_get_dict (pull_request_of payload)) by exact P. cbn [bind].
  rewrite (py_get_dict (pull_request_of payload)) by exact P. cbn [bind].
  fold (is_merge payload). fold (is_open payload).
  fold (head_ref payload). fold (base_ref payload).
  destruct (is_merge payload).
  - rewrite !andb_true_iff in R. destruct R as ((((M & A) & F) & T) & TS).
    rewrite (py_get_dict (pull_request_of payload)) by exact P. cbn [bind].
    rewrite py_get_dict by exact M. cbn [bind].
    fold (merged_by_login payload).
    destruct (new_GitHubEvent_validates _ MERGE _ _ _ A F T TS) as [e ->].
    cbn. eauto.
  - destruct (is_open payload); [|eauto].
    rewrite !andb_true_iff in R. destruct R as (((A & F) & T) & TS).
    rewrite (py_get_dict (pull_request_of payload)) by exact P. cbn [bind].
    rewrite (is_str_default _ "created_at" "" now) in TS.
    destruct (new_GitHubEvent_validates _ PULL_REQUEST _ _ _ A F T TS)
      as [e ->].
    cbn. eauto.
Qed.

(** Claim C2, as the code has it.  The extraction raises nothing exactly
    on the payloads of [pull_request_shape_ok].  On those, a merge ([closed]
    with [merged] and [merged_at] both truthy) gives a Merge event stamped
    [merged_at], and otherwise [opened] or [reopened] gives a PullRequest
    event stamped [created_at], or [now] when that key is missing.  Any
    other sub-action gives no event, and so does every payload on which the
    extraction raises. *)
Theorem extract_pull_request_event_rule (now : string) (payload : json) :
  ((exists r, extract_pull_request_event_body now payload = Ok r)
   <-> pull_request_shape_ok payload = true) /\
  (pull_request_shape_ok payload = true ->
   (is_merge payload = true ->
    exists e, extract_pull_request_event now payload = Some e /\
              action e = MERGE /\
              JStr (timestamp e)
              = get_default (pull_request_of payload) "merged_at" JNull) /\
   (is_merge payload = false -> is_open payload = true ->
    exists e, extract_pull_request_event now payload = Some e /\
              action e = PULL_REQUEST /\
              JStr (timestamp e)
              = get_default (pull_request_of payload) "created_at"
                            (JStr now))) /\
  (is_merge payload = false -> is_open payload = false ->
   extract_pull_request_event now payload = None) /\
  (pull_request_shape_ok payload = false ->
   extract_pull_request_event now payload = None).
Proof.
  assert (I : (exists r, extract_pull_request_event_body now payload = Ok r)
              <-> pull_request_shape_ok payload = true).
  { split.
    - intros [r H]. now apply extract_pull_request_event_body_shape in H.
    - apply extract_pull_request_event_body_ok. }
  split; [exact I|].
  unfold extract_pull_request_event, except_none.
  destruct (extract_pull_request_event_body now payload) as [r|x] eqn:B.
  - pose proof (extract_pull_request_event_body_Ok _ _ _ B) as R.
    split; [|split].
    + intros _. split.
      * intros M. rewrite M in R. destruct R as (e & -> & A & _ & _ & _ & T).
        eauto.
      * intros M O. rewrite M, O in R.
        destruct R as (e & -> & A & _ & _ & _ & T). eauto.
    + intros M O. now rewrite M, O in R.
    + intros S. rewrite (proj1 I) in S by eauto. discriminate.
  - split; [|split; reflexivity].
    intros S. apply I in S as [r S]. discriminate.
Qed.

Lemma extract_pull_request_event_rule_witness :
  (exists e,
     extract_pull_request_event "2024-01-01T00:00:00+00:00" payload_C
     = Some e /\ action e = MERGE /\
     JStr (timestamp e) = JStr "2021-05-03T11:00:00Z") /\
  (exists e,
     extract_pull_request_event "2024-01-01T00:00:00+00:00" payload_B
     = Some e /\ action e = PULL_REQUEST /\
     JStr (timestamp e) = JStr "2021-05-02T10:00:00Z").
Proof.
  split.
  - refine (proj1 (proj1 (proj2 (extract_pull_request_event_rule
                                   "2024-01-01T00:00:00+00:00" payload_C))
                         _) _); reflexivity.
  - refine (proj2 (proj1 (proj2 (extract_pull_request_event_rule
                                   "2024-01-01T00:00:00+00:00" payload_B))
                         _) _ _); reflexivity.
Defined.

(** Claim C2 as stated fails: the sub-action is [opened], yet no
    PullRequest event is produced, the lookup of the login on a null [user]
    having raised. *)
Lemma extract_pull_request_event_rule_counterexample :
  get_default payload_user_null "action" (JStr "") = JStr "opened" /\
  extract_pull_request_event "2024-01-01T00:00:00+00:00" payload_user_null
  = None.
Proof. split; reflexivity. Qed.

(** *** Invariants of the events produced *)

(** Claim C6, as the code has it: a Push event has no [from_branch]; a
    PullRequest or Merge event carries the payload's
    [pull_request.head.ref], which is a string when the payload gives one,
    the literal [unknown] when [head] has no [ref], and absent when the
    payload gives [ref] as null. *)
Theorem from_branch_by_action (now : string) (payload : json)
    (e : GitHubEvent) :
  (extract_push_event now payload = Some e ->
   action e = PUSH /\ from_branch e = None) /\
  (extract_pull_request_event now payload = Some e ->
   (action e = PULL_REQUEST \/ action e = MERGE) /\
   ((head_ref payload = JNull /\ from_branch e = None) \/
    (exists s, head_ref payload = JStr s /\ from_branch e = Some s)) /\
   (forall head_kvs,
      get_default (pull_request_of payload) "head" (JDict [])
      = JDict head_kvs ->
      lookup "ref" head_kvs = None -> from_branch e = Some "unknown")).
Proof.
  split.
  - intros H. apply extract_push_event_Some in H. tauto.
  - intros H. apply extract_pull_request_event_Some in H.
    assert (A : (action e = PULL_REQUEST \/ action e = MERGE) /\
                validate_optional_str (head_ref payload)
                = Ok (from_branch e)).
    { destruct H as [(_ & A & _ & F & _) | (_ & _ & A & _ & F & _)]; auto. }
    destruct A as [A F]. split; [exact A|]. split.
    + now apply validate_optional_str_Ok.
    + intros hk Hh Hr. unfold head_ref in F. rewrite Hh in F. simpl in F.
      rewrite Hr in F. simpl in F. congruence.
Qed.

Lemma from_branch_by_action_witness :
  (action event_A = PUSH /\ from_branch event_A = None) /\
  ((head_ref payload_B = JNull /\ from_branch event_B = None) \/
   (exists s, head_ref payload_B = JStr s /\ from_branch event_B = Some s)).
Proof.
  split.
  - refine (proj1 (from_branch_by_action
                     "2024-01-01T00:00:00+00:00" payload_A event_A) _).
    reflexivity.
  - refine (proj1 (proj2 (proj2 (from_branch_by_action
                                   "2024-01-01T00:00:00+00:00"
                                   payload_B event_B) _))).
    reflexivity.
Defined.

(** Claim C6 as stated fails: this PullRequest event has no
    [from_branch]. *)
Lemma from_branch_by_action_counterexample :
  exists e,
    extract_pull_request_event "2024-01-01T00:00:00+00:00"
                               payload_head_ref_null = Some e /\
    action e = PULL_REQUEST /\ from_branch e = None.
Proof. eexists. repeat split. Qed.

Lemma resolve_author_empty (primary payload : json) :
  resolve_author primary payload = JStr "" -> sender_login payload = JStr "".
Proof.
  unfold resolve_author. destruct (truthy primary) eqn:T; [|auto].
  intros ->. discriminate.
Qed.

(** Claim C9, as the code has it: the author of a Push or PullRequest event
    is the primary field ([pusher.name], [pull_request.user.login]) when it
    is truthy, else [sender.login], else [Unknown]; that of a Merge event is
    [merged_by.login], else that same resolved author.  It is the empty
    string only when the payload gives the field fallen back to
    ([sender.login], or for a merge [merged_by.login]) as the empty
    string. *)
Theorem author_resolution (now : string) (payload : json) (e : GitHubEvent) :
  (extract_push_event now payload = Some e ->
   JStr (author e) = resolve_author (pusher_name payload) payload /\
   (author e = "" -> sender_login payload = JStr "")) /\
  (extract_pull_request_event now payload = Some e ->
   (action e = PULL_REQUEST ->
    JStr (author e) = resolve_author (user_login payload) payload) /\
   (action e = MERGE -> JStr (author e) = merged_by_login payload) /\
   (author e = "" ->
    sender_login payload = JStr "" \/
    (action e = MERGE /\ merged_by_login payload = JStr ""))).
Proof.
  split.
  - intros H. apply extract_push_event_Some in H as (A & _).
    split; [exact A|]. intros E. rewrite E in A.
    now apply resolve_author_empty with (primary := pusher_name payload).
  - intros H. apply extract_pull_request_event_Some in H.
    destruct H as [(_ & Act & A & _) | (_ & _ & Act & A & _)].
    + split; [congruence|]. split; [auto|].
      intros E. rewrite E in A. right. auto.
    + split; [auto|]. split; [congruence|].
      intros E. rewrite E in A. left.
      now apply resolve_author_empty with (primary := user_login payload).
Qed.

Lemma author_resolution_witness :
  JStr (author event_A) = JStr "alice" /\
  (author event_A = "" -> sender_login payload_A = JStr "").
Proof.
  refine (proj1 (author_resolution "2024-01-01T00:00:00+00:00"
                                   payload_A event_A) _).
  reflexivity.
Defined.

(** Claim C9 as stated fails: the author of this event is the empty
    string. *)
Lemma author_resolution_counterexample :
  exists e,
    extract_push_event "2024-01-01T00:00:00+00:00" payload_empty_login
    = Some e /\ author e = "".
Proof. eexists. split; reflexivity. Qed.


(* ====================================================================== *)
(** ** Further properties of the formatter *)
(* ====================================================================== *)

Lemma strftime_display (dt : datetime) :
  str_of_int (day dt) ++ suffix_table (day dt)
  ++ strftime dt " %B %Y - %I:%M %p UTC" = display dt.
Proof. reflexivity. Qed.

Lemma parsed_as_day (s : string) (dt : datetime) :
  parsed_as s dt -> (1 <= day dt <= 31)%Z.
Proof.
  intros [H | (_ & dt0 & H & ->)].
  - now apply fromisoformat_day in H.
  - now apply strptime_day in H.
Qed.

Lemma format_timestamp_parsed (s : string) (dt : datetime) :
  parsed_as s dt -> format_timestamp s = Ok (display dt).
Proof.
  intros H. pose proof (parsed_as_day s dt H) as D.
  rewrite <- strftime_display. unfold format_timestamp.
  destruct H as [H | (H & dt0 & H0 & ->)]; rewrite H.
  - now apply render_in_range.
  - rewrite H0. now apply render_in_range.
Qed.

(** A string is either read as an instant or left as it is. *)
Lemma format_timestamp_cases (s : string) :
  (exists dt, parsed_as s dt) \/ format_timestamp s = Ok s.
Proof.
  unfold parsed_as.
  destruct (fromisoformat (str_replace s "Z" "+00:00")) as [dt|e] eqn:E1;
    [eauto|].
  pose proof (fromisoformat_raises _ _ E1) as ->.
  destruct (strptime s) as [dt|e] eqn:E2.
  - left. exists (replace_tzinfo_utc dt). right. eauto.
  - right. unfold format_timestamp. rewrite E1, E2.
    now apply strptime_raises in E2 as ->.
Qed.

Lemma hour12_range (h : Z) : (1 <= hour12 h <= 12)%Z.
Proof.
  unfold hour12. pose proof (Z.mod_pos_bound h 12 ltac:(lia)).
  destruct (h mod 12 =? 0)%Z eqn:E; [lia|]. apply Z.eqb_neq in E. lia.
Qed.

(** The whole display of a timestamp that parses: day and suffix, month
    name, year, then the time on a 12-hour clock with a two-digit hour
    between 01 and 12 (midnight and noon both read 12), AM before noon
    and PM from noon on, and the fixed label UTC. *)
Theorem format_timestamp_display (s : string) (dt : datetime) :
  parsed_as s dt ->
  format_timestamp s = Ok (display dt) /\
  (1 <= hour12 (hour dt) <= 12)%Z /\
  (hour12 (hour dt) = 12%Z <-> hour dt = 0%Z \/ hour dt = 12%Z).
Proof.
  intros H. split; [now apply format_timestamp_parsed|].
  split; [apply hour12_range|].
  assert (V : (0 <= hour dt <= 23)%Z).
  { assert (W : valid_datetime dt = true).
    { destruct H as [H | (_ & dt0 & H & ->)].
      - unfold fromisoformat in H.
        destruct (parse_isoformat _); [|discriminate].
        now apply new_datetime_inv in H as [-> H].
      - unfold strptime in H. destruct (strptime_match s); [|discriminate].
        apply new_datetime_inv in H as [-> H].
        unfold valid_datetime in *. simpl.
        rewrite !andb_true_iff in H. rewrite !andb_true_iff. tauto. }
    unfold valid_datetime in W. rewrite !andb_true_iff, !between_spec in W.
    tauto. }
  unfold hour12. destruct (hour dt mod 12 =? 0)%Z eqn:E.
  - apply Z.eqb_eq in E. split; [intros _ | reflexivity].
    Z.div_mod_to_equations. lia.
  - apply Z.eqb_neq in E. split.
    + Z.div_mod_to_equations. lia.
    + intros [H0 | H0]; rewrite H0 in E; now destruct E.
Qed.

Lemma format_timestamp_display_witness :
  format_timestamp "2021-04-01T00:05:00" = Ok "1st April 2021 - 12:05 AM UTC".
Proof.
  refine (proj1 (format_timestamp_display
                   "2021-04-01T00:05:00"
                   (mkdatetime 2021 4 1 0 5 0 0 None) _)).
  left. vm_compute. reflexivity.
Defined.

(** The offset of a timestamp takes no part in its display: two strings
    that parse to the same calendar day, hour and minute are displayed
    alike, whatever offsets they carry, and both under the label UTC. *)
Theorem format_timestamp_ignores_offset (s1 s2 : string) (d1 d2 : datetime) :
  parsed_as s1 d1 -> parsed_as s2 d2 ->
  year d1 = year d2 -> month d1 = month d2 -> day d1 = day d2 ->
  hour d1 = hour d2 -> minute d1 = minute d2 ->
  format_timestamp s1 = format_timestamp s2.
Proof.
  intros P1 P2 Y M D H Mi.
  rewrite (format_timestamp_parsed _ _ P1), (format_timestamp_parsed _ _ P2).
  unfold display. now rewrite Y, M, D, H, Mi.
Qed.

Lemma format_timestamp_ignores_offset_witness :
  format_timestamp "2021-04-01T21:30:00+05:30"
  = format_timestamp "2021-04-01T21:30:00Z".
Proof.
  apply (format_timestamp_ignores_offset
           _ _ (mkdatetime 2021 4 1 21 30 0 0 (Some 19800000000%Z))
           (mkdatetime 2021 4 1 21 30 0 0 (Some 0%Z)));
    try reflexivity; left; vm_compute; reflexivity.
Defined.

Lemma days_head_unparsable (rest : string) :
  forallb (day_head_unparsable rest) (seq 1 31) = true.
Proof. vm_compute. reflexivity. Qed.

Lemma parse_isoformat_digits (s : string) :
  digits 4 0 s = None -> parse_isoformat s = None.
Proof. unfold parse_isoformat. now intros ->. Qed.

Lemma strptime_match_digits (s : string) :
  digits 4 0 s = None -> strptime_match s = None.
Proof. unfold strptime_match. now intros ->. Qed.

Lemma display_unparsable (dt : datetime) :
  (1 <= day dt <= 31)%Z -> format_timestamp (display dt) = Ok (display dt).
Proof.
  intros H. pose proof (days_head_unparsable
    (" " ++ month_name (month dt) ++ " " ++ str_of_int (year dt) ++ " - "
     ++ pad2 (hour12 (hour dt)) ++ ":" ++ pad2 (minute dt) ++ " "
     ++ (if (hour dt <? 12)%Z then "AM" else "PM") ++ " UTC")) as A.
  rewrite forallb_forall in A. specialize (A (Z.to_nat (day dt))).
  unfold day_head_unparsable in A. rewrite Z2Nat.id in A by lia.
  fold (display dt) in A.
  assert (I : In (Z.to_nat (day dt)) (seq 1 31)) by (apply in_seq; lia).
  specialize (A I).
  destruct (digits 4 0 (str_replace (display dt) "Z" "+00:00")) eqn:E1;
    [discriminate|].
  destruct (digits 4 0 (display dt)) eqn:E2; [discriminate|].
  unfold format_timestamp, fromisoformat, strptime.
  now rewrite (parse_isoformat_digits _ E1), (strptime_match_digits _ E2).
Qed.

(** Formatting is idempotent: what [format_timestamp] returns, it returns
    unchanged when given it again (a rendered date is not itself read as a
    timestamp, and a string left as it was is left so again). *)
Theorem format_timestamp_idempotent (s out : string) :
  format_timestamp s = Ok out -> format_timestamp out = Ok out.
Proof.
  intros H. destruct (format_timestamp_cases s) as [[dt P] | E].
  - rewrite (format_timestamp_parsed _ _ P) in H. injection H as <-.
    apply display_unparsable. now apply parsed_as_day in P.
  - rewrite E in H. injection H as <-. exact E.
Qed.

Lemma format_timestamp_idempotent_witness :
  format_timestamp "1st April 2021 - 09:30 PM UTC"
  = Ok "1st April 2021 - 09:30 PM UTC".
Proof.
  apply (format_timestamp_idempotent "2021-04-01T21:30:00Z").
  vm_compute. reflexivity.
Defined.

(** The message of a document the webhook stored is the template of its
    action, filled with the stored fields (a missing [from_branch] reads
    [None]) and the displayed timestamp; it is never the fallback for an
    unknown action. *)
Theorem create_formatted_message_stored (coll : collection) (oid : string)
    (e : GitHubEvent) :
  insert_one coll oid e = (coll ++ [document_of oid e])%list /\
  exists shown,
    format_timestamp (timestamp e) = Ok shown /\
    create_formatted_message (document_of oid e) = Ok (template e shown).
Proof.
  split; [reflexivity|].
  destruct (format_timestamp_total (timestamp e)) as [shown F].
  exists shown. split; [exact F|].
  unfold create_formatted_message, template, document_of. simpl.
  rewrite F. cbn [bind]. now destruct (action e).
Qed.

(** A document whose action is none of the three stored values, in their
    exact spelling, gets the fallback message, whatever its timestamp. *)
Theorem create_formatted_message_unknown (d : StoredEvent) :
  doc_action d <> "PUSH" -> doc_action d <> "PULL_REQUEST" ->
  doc_action d <> "MERGE" ->
  create_formatted_message d = Ok ("Unknown action by " ++ doc_author d).
Proof.
  intros H1 H2 H3. unfold create_formatted_message.
  destruct (format_timestamp_total (doc_timestamp d)) as [t ->].
  cbn [bind value].
  apply String.eqb_neq in H1, H2, H3. now rewrite H1, H2, H3.
Qed.

Lemma create_formatted_message_unknown_witness :
  create_formatted_message
    (mkStoredEvent "a1" "alice" "push" None "main" "2021-04-01T21:30:00Z")
  = Ok "Unknown action by alice".
Proof.
  apply (create_formatted_message_unknown
           (mkStoredEvent "a1" "alice" "push" None "main"
                          "2021-04-01T21:30:00Z")); discriminate.
Defined.

(* ====================================================================== *)
(** ** Further properties of the classifier and the webhook *)
(* ====================================================================== *)

(** The branch of a push whose [ref] holds [refs/heads/] nowhere but,
    possibly, at its head: the rest after that prefix, or the whole [ref]
    when it does not start with it (the ref of a tag is stored whole). *)
Theorem extract_push_event_to_branch (now : string) (payload : json)
    (e : GitHubEvent) (ref : string) :
  extract_push_event now payload = Some e ->
  (get_default payload "ref" (JStr "") = JStr ("refs/heads/" ++ ref) ->
   no_occurrence "refs/heads/" ref -> to_branch e = ref) /\
  (get_default payload "ref" (JStr "") = JStr ref ->
   ref <> "" -> no_occurrence "refs/heads/" ref -> to_branch e = ref).
Proof.
  intros H. apply extract_push_event_Some in H as (_ & _ & _ & B & _).
  cbv zeta in B. split.
  - intros R N. rewrite R in B. simpl truthy in B. cbv iota in B.
    destruct B as (s & [= <-] & ->).
    exact (str_replace_strips_prefix ref N).
  - intros R Hne N. rewrite R in B. simpl in B.
    apply String.eqb_neq in Hne. rewrite Hne in B. simpl in B.
    destruct B as (s & [= <-] & ->).
    unfold str_replace. now apply replace_from_no_occurrence.
Qed.

Lemma prefix_app (old b : string) : prefix old (old ++ b) = true.
Proof.
  induction old as [|x old IH]; [now destruct b|].
  simpl. destruct (ascii_dec x x); [exact IH | congruence].
Qed.

Lemma occurrence_free_sound (old s : string) :
  occurrence_free old s = true -> no_occurrence old s.
Proof.
  induction s as [|c s IH]; intros H a b E.
  - destruct a; [|discriminate]. simpl in E. cbn [occurrence_free] in H.
    apply negb_true_iff in H. rewrite E, prefix_app in H. discriminate.
  - cbn [occurrence_free] in H. apply andb_true_iff in H as [H1 H2].
    apply negb_true_iff in H1. destruct a as [|x a].
    + simpl in E. rewrite E, prefix_app in H1. discriminate.
    + injection E as _ E. exact (IH H2 a b E).
Qed.

Lemma extract_push_event_to_branch_witness :
  to_branch event_A = "feature-x".
Proof.
  refine (proj1 (extract_push_event_to_branch
                   "2024-01-01T00:00:00+00:00" payload_A event_A "feature-x"
                   _) _ _).
  - reflexivity.
  - reflexivity.
  - apply occurrence_free_sound. reflexivity.
Defined.

(** The target branch of a pull-request event is always a string: the
    payload's [pull_request.base.ref], or [unknown] when [base] has no [ref];
    a payload whose [base.ref] is anything else than a string, null
    included, yields no event, whatever its sub-action. *)
Theorem extract_pull_request_event_to_branch (now : string) (payload : json) :
  (forall e, extract_pull_request_event now payload = Some e ->
     JStr (to_branch e) = base_ref payload /\
     (forall base_kvs,
        get_default (pull_request_of payload) "base" (JDict [])
        = JDict base_kvs ->
        lookup "ref" base_kvs = None -> to_branch e = "unknown")) /\
  (is_str (base_ref payload) = false ->
   extract_pull_request_event now payload = None).
Proof.
  assert (A : forall e, extract_pull_request_event now payload = Some e ->
                        JStr (to_branch e) = base_ref payload).
  { intros e H. apply extract_pull_request_event_Some in H.
    destruct H as [(_ & _ & _ & _ & B & _) | (_ & _ & _ & _ & _ & B & _)];
      exact B. }
  split.
  - intros e H. split; [now apply A|].
    intros kvs Hb Hr. apply A in H. unfold base_ref in H.
    rewrite Hb in H. simpl in H. rewrite Hr in H. congruence.
  - intros S. destruct (extract_pull_request_event now payload) as [e|] eqn:H;
      [|reflexivity].
    specialize (A e eq_refl). rewrite <- A in S. discriminate.
Qed.

Lemma extract_pull_request_event_to_branch_witness :
  JStr (to_branch event_B) = base_ref payload_B.
Proof.
  refine (proj1 (proj1 (extract_pull_request_event_to_branch
                          "2024-01-01T00:00:00+00:00" payload_B)
                       event_B _)).
  reflexivity.
Defined.

Lemma extract_not_dict (now : string) (payload : json) :
  is_dict payload = false ->
  extract_push_event now payload = None /\
  extract_pull_request_event now payload = None.
Proof.
  intros H. destruct payload; try discriminate; split; reflexivity.
Qed.

(** A delivery that cannot be an event stores nothing.  A body that is
    not JSON is answered with the 500, under any discriminator, supported
    or not.  A body that is JSON is answered "ignored" when it is not an
    object, under any discriminator, and when the discriminator is other
    than [push] and [pull_request] in that exact spelling. *)
Theorem receive_github_webhook_ignored (coll : collection) (oid now : string)
    (github_event : string) (body : result json) :
  match body with
  | Raise x =>
      receive_github_webhook coll oid now github_event body
      = (ServerError x, coll)
  | Ok payload =>
      is_dict payload = false \/
      (github_event <> "push" /\ github_event <> "pull_request") ->
      exists message,
        receive_github_webhook coll oid now github_event body
        = (Ignored message, coll)
  end.
Proof.
  destruct body as [payload|x]; [|reflexivity].
  intros H. unfold receive_github_webhook.
  destruct (github_event =? "push") eqn:E1.
  - destruct H as [H | [H _]]; [|now apply String.eqb_eq in E1].
    rewrite (proj1 (extract_not_dict now payload H)). eauto.
  - destruct (github_event =? "pull_request") eqn:E2; [|eauto].
    destruct H as [H | [_ H]]; [|now apply String.eqb_eq in E2].
    rewrite (proj2 (extract_not_dict now payload H)). eauto.
Qed.

Lemma receive_github_webhook_ignored_witness :
  (exists message,
     receive_github_webhook three_events "a4" "2024-01-01T00:00:00+00:00"
                            "issues" (Ok payload_A)
     = (Ignored message, three_events)) /\
  (exists message,
     receive_github_webhook three_events "a4" "2024-01-01T00:00:00+00:00"
                            "push" (Ok (JList [payload_A]))
     = (Ignored message, three_events)) /\
  receive_github_webhook three_events "a4" "2024-01-01T00:00:00+00:00"
                         "push" (Raise ValueError)
  = (ServerError ValueError, three_events).
Proof.
  split; [|split].
  - apply (receive_github_webhook_ignored
             three_events "a4" "2024-01-01T00:00:00+00:00" "issues"
             (Ok payload_A)).
    right. split; discriminate.
  - apply (receive_github_webhook_ignored
             three_events "a4" "2024-01-01T00:00:00+00:00" "push"
             (Ok (JList [payload_A]))).
    left. reflexivity.
  - exact (receive_github_webhook_ignored
             three_events "a4" "2024-01-01T00:00:00+00:00" "push"
             (Raise ValueError)).
Defined.

(** The webhook only ever appends.  Whatever the body and the
    discriminator, it answers with the 500 or "ignored" and leaves the
    collection as it was, or it answers "success" and adds, after the
    documents already there, the one document of the event its
    discriminator's classifier produced from the body's tree, under the
    identifier it reports, with the author, action and target branch it
    reports. *)
Theorem receive_github_webhook_appends (coll : collection) (oid now : string)
    (github_event : string) (body : result json) :
  match receive_github_webhook coll oid now github_event body with
  | (ServerError _, coll') => coll' = coll
  | (Ignored _, coll') => coll' = coll
  | (Success event_id a act tb, coll') =>
      exists payload e,
        body = Ok payload /\
        coll' = (coll ++ [document_of oid e])%list /\
        event_id = oid /\ a = author e /\ act = value (action e) /\
        tb = to_branch e /\
        ((github_event = "push" /\ extract_push_event now payload = Some e)
         \/ (github_event = "pull_request" /\
             extract_pull_request_event now payload = Some e))
  end.
Proof.
  unfold receive_github_webhook.
  destruct body as [payload|x]; [|reflexivity].
  destruct (github_event =? "push") eqn:E1.
  - apply String.eqb_eq in E1.
    destruct (extract_push_event now payload) as [e|] eqn:H; [|reflexivity].
    exists payload, e. repeat split; auto.
  - destruct (github_event =? "pull_request") eqn:E2; [|reflexivity].
    apply String.eqb_eq in E2.
    destruct (extract_pull_request_event now payload) as [e|] eqn:H;
      [|reflexivity].
    exists payload, e. repeat split; auto.
Qed.

(* ====================================================================== *)
(** ** Further properties of polling *)
(* ====================================================================== *)

Lemma to_responses_Forall2 (l : list StoredEvent) :
  exists rs, to_responses l = Ok rs /\ Forall2 response_for l rs.
Proof.
  induction l as [|d l (rs & E & F)]; [exists []; split; constructor|].
  destruct (create_formatted_message_total d) as [msg M].
  eexists. simpl. rewrite M, E. cbn [bind]. split; [reflexivity|].
  constructor; [|exact F]. exists msg. auto.
Qed.

Lemma to_responses_Ok (l : list StoredEvent) (rs : list EventResponse) :
  to_responses l = Ok rs -> Forall2 response_for l rs.
Proof.
  destruct (to_responses_Forall2 l) as (rs' & E & F). congruence.
Qed.


Lemma Forall2_In_r {A B : Type} (P : A -> B -> Prop) (l : list A)
    (rs : list B) (r : B) :
  Forall2 P l rs -> In r rs -> exists d, In d l /\ P d r.
Proof.
  induction 1 as [|x y l rs Hxy F IH]; intros []; subst.
  - exists x. split; [now left | exact Hxy].
  - destruct IH as (d & I & Hd); [assumption|]. exists d. split; auto.
    now right.
Qed.

Lemma insert_desc_perm (d : StoredEvent) (l : list StoredEvent) :
  Permutation (d :: l) (insert_desc d l).
Proof.
  induction l as [|x l IH]; simpl; [reflexivity|].
  destruct (_ <=? _); [reflexivity|].
  rewrite perm_swap. now constructor.
Qed.

Lemma sort_desc_perm (l : list StoredEvent) : Permutation l (sort_desc l).
Proof.
  induction l as [|d l IH]; simpl; [constructor|].
  rewrite <- insert_desc_perm. now constructor.
Qed.

Lemma sort_desc_strongly (l : list StoredEvent) :
  StronglySorted doc_desc (sort_desc l).
Proof.
  apply Sorted_StronglySorted; [|apply sort_desc_sorted].
  intros x y z. unfold doc_desc. apply desc_trans.
Qed.

Lemma strongly_sorted_app {A : Type} (R : A -> A -> Prop) (a b : list A) :
  StronglySorted R (a ++ b) -> forall x y, In x a -> In y b -> R x y.
Proof.
  induction a as [|h a IH]; intros S x y Hx Hy; [destruct Hx|].
  simpl in S. apply StronglySorted_inv in S as [S F].
  destruct Hx as [<- | Hx].
  - rewrite Forall_forall in F. apply F. apply in_or_app. now right.
  - now apply IH.
Qed.

(** [to_list] after [limit], both with the same count: the first [limit]
    documents of the sorted matches. *)
Lemma limit_to_list (L : Z) (l : list StoredEvent) :
  (0 <= L)%Z ->
  firstn (Z.to_nat L) (cursor_limit L l) = firstn (Z.to_nat L) l.
Proof.
  intros H. unfold cursor_limit. destruct (L =? 0)%Z; [reflexivity|].
  rewrite Z.abs_eq by exact H. rewrite firstn_firstn. now rewrite Nat.min_id.
Qed.

Lemma get_events_Ok (coll : collection) (since : option string) (L : Z)
    (rs : list EventResponse) :
  get_events coll since L = Ok rs ->
  (0 <= L)%Z /\
  Forall2 response_for
          (firstn (Z.to_nat L) (sort_desc (find coll (query_of since)))) rs.
Proof.
  unfold get_events, to_list. fold (query_of since).
  destruct (L <? 0)%Z eqn:E; [discriminate|]. apply Z.ltb_ge in E.
  cbn [bind]. rewrite (limit_to_list L _ E). intros H.
  split; [exact E | now apply to_responses_Ok].
Qed.

Lemma get_events_nonneg (coll : collection) (since : option string) (L : Z) :
  (0 <= L)%Z ->
  exists rs,
    get_events coll since L = Ok rs /\
    Forall2 response_for
            (firstn (Z.to_nat L) (sort_desc (find coll (query_of since)))) rs.
Proof.
  intros H. unfold get_events, to_list. fold (query_of since).
  apply Z.ltb_ge in H as E. rewrite E. cbn [bind].
  rewrite (limit_to_list L _ H). apply to_responses_Forall2.
Qed.

Lemma Forall2_length_eq {A B : Type} (P : A -> B -> Prop) (l : list A)
    (rs : list B) :
  Forall2 P l rs -> List.length rs = List.length l.
Proof. induction 1; simpl; congruence. Qed.

(** How many records a poll returns: for a limit [L >= 0], as many as
    there are documents passing the filter, up to [L]; none at all for
    [L = 0]. *)
Theorem get_events_count (coll : collection) (since : option string) (L : Z) :
  (0 <= L)%Z ->
  exists rs,
    get_events coll since L = Ok rs /\
    List.length rs
    = Nat.min (Z.to_nat L) (List.length (find coll (query_of since))).
Proof.
  intros H. destruct (get_events_nonneg coll since L H) as (rs & E & F).
  exists rs. split; [exact E|].
  rewrite (Forall2_length_eq _ _ _ F), length_firstn.
  now rewrite sort_desc_length.
Qed.

Lemma get_events_count_witness :
  exists rs,
    get_events three_events None 2 = Ok rs /\
    List.length rs = Nat.min 2 3.
Proof.
  apply (get_events_count three_events None 2). lia.
Defined.

(** Which records a poll returns: those of the most recent documents
    passing the filter.  The documents passing it split into the ones
    returned, record by record in the order of the answer, and the rest, none
    of which is more recent than any returned one. *)
Theorem get_events_most_recent (coll : collection) (since : option string)
    (L : Z) (rs : list EventResponse) :
  get_events coll since L = Ok rs ->
  exists kept rest,
    Forall2 response_for kept rs /\
    Permutation (find coll (query_of since)) (kept ++ rest) /\
    Forall (fun k =>
              Forall (fun d => (doc_timestamp d <=? doc_timestamp k) = true)
                     rest) kept.
Proof.
  intros H. apply get_events_Ok in H as [_ F].
  set (sorted := sort_desc (find coll (query_of since))) in *.
  exists (firstn (Z.to_nat L) sorted), (skipn (Z.to_nat L) sorted).
  split; [exact F|]. split.
  - rewrite firstn_skipn. apply sort_desc_perm.
  - pose proof (sort_desc_strongly (find coll (query_of since))) as S.
    fold sorted in S. rewrite <- (firstn_skipn (Z.to_nat L) sorted) in S.
    apply Forall_forall. intros k Hk. apply Forall_forall. intros d Hd.
    exact (strongly_sorted_app _ _ _ S k d Hk Hd).
Qed.

Lemma get_events_most_recent_witness :
  exists kept rest,
    Forall2 response_for kept
            [mkEventResponse "a3" "carol" "MERGE" (Some "dev") "main"
                             "2021-05-03T11:00:00Z"
                             (dquote ++ "carol" ++ dquote
                              ++ " merged branch " ++ dquote ++ "dev"
                              ++ dquote ++ " to " ++ dquote ++ "main"
                              ++ dquote
                              ++ " on 3rd May 2021 - 11:00 AM UTC")] /\
    Permutation (find three_events (query_of None)) (kept ++ rest) /\
    Forall (fun k =>
              Forall (fun d => (doc_timestamp d <=? doc_timestamp k) = true)
                     rest) kept.
Proof.
  apply (get_events_most_recent three_events None 1).
  vm_compute. reflexivity.
Defined.

(** A poll is answered with a list exactly when its limit is not negative;
    no collection, watermark or stored timestamp makes it fail otherwise. *)
Theorem get_events_answers (coll : collection) (since : option string)
    (L : Z) :
  (exists rs, get_events coll since L = Ok rs) <-> (0 <= L)%Z.
Proof.
  split.
  - intros [rs H]. now apply get_events_Ok in H.
  - intros H. destruct (get_events_nonneg coll since L H) as (rs & E & _).
    eauto.
Qed.




Lemma leb_refl (a : string) : (a <=? a) = true.
Proof.
  destruct (String.leb_total a a) as [H | H]; exact H.
Qed.

Lemma leb_ltb_trans (a b c : string) :
  (a <=? b) = true -> (b <? c) = true -> (a <? c) = true.
Proof.
  intros H1 H2. apply ltb_not_leb in H2.
  destruct (c <=? a) eqn:E.
  - rewrite (leb_trans c a b E H1) in H2. discriminate.
  - unfold String.leb in E. unfold String.ltb.
    rewrite (String.compare_antisym a c).
    destruct (c ?= a)%string; simpl; congruence.
Qed.

Lemma response_for_timestamp (d : StoredEvent) (r : EventResponse) :
  response_for d r -> resp_timestamp r = doc_timestamp d.
Proof. now intros (msg & _ & ->). Qed.

(** Polling again from the newest timestamp already shown repeats
    nothing: when a poll's first record carries the non-empty timestamp [T],
    every record of a later poll with [since = T], on whatever the
    collection has become, is strictly more recent than every record of
    the first answer. *)
Theorem get_events_no_repeat (coll coll' : collection)
    (since : option string) (L1 L2 : Z)
    (r1 : EventResponse) (rs1 rs2 : list EventResponse) :
  get_events coll since L1 = Ok (r1 :: rs1) ->
  resp_timestamp r1 <> "" ->
  get_events coll' (Some (resp_timestamp r1)) L2 = Ok rs2 ->
  Forall (fun r' =>
            Forall (fun r => (resp_timestamp r <? resp_timestamp r') = true)
                   (r1 :: rs1)) rs2.
Proof.
  intros H1 HT H2.
  apply get_events_Ok in H1 as [_ F1]. apply get_events_Ok in H2 as [_ F2].
  assert (Q : query_of (Some (resp_timestamp r1))
              = QTimestampGt (resp_timestamp r1)).
  { unfold query_of. simpl. apply String.eqb_neq in HT. now rewrite HT. }
  rewrite Q in F2. clear Q.
  pose proof (sort_desc_strongly (find coll (query_of since))) as S1.
  set (s1 := sort_desc (find coll (query_of since))) in *.
  rewrite <- (firstn_skipn (Z.to_nat L1) s1) in S1.
  destruct (firstn (Z.to_nat L1) s1) as [|d1 k1] eqn:K; inversion F1; subst.
  assert (T1 : resp_timestamp r1 = doc_timestamp d1)
    by now apply response_for_timestamp.
  assert (B : forall r, In r (r1 :: rs1) ->
                        (resp_timestamp r <=? resp_timestamp r1) = true).
  { intros r [<- | Hr]; [apply leb_refl|].
    destruct (Forall2_In_r _ _ _ _ H4 Hr) as (d & Hd & Rd).
    rewrite (response_for_timestamp _ _ Rd), T1.
    simpl in S1. apply StronglySorted_inv in S1 as [_ S1].
    rewrite Forall_forall in S1. apply S1. apply in_or_app. now left. }
  apply Forall_forall. intros r' Hr'. apply Forall_forall. intros r Hr.
  destruct (Forall2_In_r _ _ _ _ F2 Hr') as (d' & Hd' & Rd').
  rewrite (response_for_timestamp _ _ Rd').
  apply leb_ltb_trans with (resp_timestamp r1); [now apply B|].
  assert (M : Forall (fun d => matches (QTimestampGt (resp_timestamp r1)) d
                               = true)
                     (firstn (Z.to_nat L2)
                        (sort_desc
                           (find coll' (QTimestampGt (resp_timestamp r1)))))).
  { apply firstn_Forall, sort_desc_Forall, find_Forall. }
  rewrite Forall_forall in M. exact (M d' Hd').
Qed.

Lemma get_events_no_repeat_witness :
  exists rs2,
    get_events (three_events ++ [document_of "a4" event_B])%list
               (Some "2021-04-01T21:30:00Z") 10 = Ok rs2 /\
    Forall (fun r' =>
              Forall (fun r => (resp_timestamp r <? resp_timestamp r') = true)
                     [mkEventResponse
                        "a1" "alice" "PUSH" None "main" "2021-04-01T21:30:00Z"
                        (dquote ++ "alice" ++ dquote ++ " pushed to "
                         ++ dquote ++ "main" ++ dquote
                         ++ " on 1st April 2021 - 09:30 PM UTC")]) rs2.
Proof.
  destruct (get_events (three_events ++ [document_of "a4" event_B])%list
                       (Some "2021-04-01T21:30:00Z") 10) as [rs2|] eqn:E;
    [|vm_compute in E; discriminate].
  exists rs2. split; [reflexivity|].
  refine (get_events_no_repeat
            [mkStoredEvent "a1" "alice" "PUSH" None "main"
                           "2021-04-01T21:30:00Z"]
            (three_events ++ [document_of "a4" event_B])%list None 10 10
            (mkEventResponse
               "a1" "alice" "PUSH" None "main" "2021-04-01T21:30:00Z"
               (dquote ++ "alice" ++ dquote ++ " pushed to "
                ++ dquote ++ "main" ++ dquote
                ++ " on 1st April 2021 - 09:30 PM UTC"))
            [] rs2 _ _ E).
  - vm_compute. reflexivity.
  - discriminate.
Defined.

(* ====================================================================== *)
(** ** What the collection holds *)
(* ====================================================================== *)

(** The timestamp of a push event is the string the payload gives in
    [head_commit.timestamp], kept as it is written, and the processing
    instant when [head_commit] has no such key. *)
Theorem extract_push_event_timestamp (now : string) (payload : json)
    (e : GitHubEvent) :
  extract_push_event now payload = Some e ->
  JStr (timestamp e)
  = get_default (get_default payload "head_commit" (JDict [])) "timestamp"
                (JStr now) /\
  (forall kvs,
     get_default payload "head_commit" (JDict []) = JDict kvs ->
     lookup "timestamp" kvs = None -> timestamp e = now).
Proof.
  intros H. apply extract_push_event_Some in H as (_ & _ & _ & _ & T).
  split; [exact T|]. intros kvs Hh Hl. rewrite Hh in T. simpl in T.
  rewrite Hl in T. congruence.
Qed.

Lemma extract_push_event_timestamp_witness :
  JStr (timestamp event_A) = JStr "2021-04-01T21:30:00Z".
Proof.
  refine (proj1 (extract_push_event_timestamp
                   "2024-01-01T00:00:00+00:00" payload_A event_A _)).
  reflexivity.
Defined.

Lemma document_of_classified (oid : string) (e : GitHubEvent) :
  (action e = PUSH -> from_branch e = None) -> classified (document_of oid e).
Proof.
  intros H. unfold classified, document_of. simpl.
  destruct (action e); auto.
Qed.

(** The webhook keeps the collection classified: when every document has
    one of the three stored actions, and no source branch if it is a push,
    the same holds after any delivery, whatever its discriminator and
    body. *)
Theorem receive_github_webhook_classified (coll : collection)
    (oid now : string) (github_event : string) (body : result json) :
  Forall classified coll ->
  Forall classified
         (snd (receive_github_webhook coll oid now github_event body)).
Proof.
  intros H. unfold receive_github_webhook.
  destruct body as [payload|x]; [|exact H].
  destruct (github_event =? "push").
  - destruct (extract_push_event now payload) as [e|] eqn:E; [|exact H].
    simpl. apply Forall_app. split; [exact H|]. constructor; [|constructor].
    apply document_of_classified. intros _.
    now apply extract_push_event_Some in E as (_ & _ & F & _).
  - destruct (github_event =? "pull_request"); [|exact H].
    destruct (extract_pull_request_event now payload) as [e|] eqn:E;
      [|exact H].
    simpl. apply Forall_app. split; [exact H|]. constructor; [|constructor].
    apply document_of_classified. intros A.
    apply extract_pull_request_event_Some in E.
    destruct E as [(_ & A' & _) | (_ & _ & A' & _)]; congruence.
Qed.

Lemma receive_github_webhook_classified_witness :
  Forall classified
         (snd (receive_github_webhook [] "a1" "2024-01-01T00:00:00+00:00"
                                      "pull_request" (Ok payload_C))).
Proof.
  apply receive_github_webhook_classified. constructor.
Defined.
